(** * fdest: FGCM DES transmission curves

    A shallow embedding of [fdest/fdest.py] (class [FgcmDesTransmission])
    and the properties of its query interface.

    Conventions of the embedding.
    - A Python object is a record of attributes; an attribute is unbound,
      bound to [None], or bound to a value ([attr]).
    - A method is a state transformer that returns an [outcome]: a value or
      a raised exception. The object keeps every assignment made before an
      exception is raised, as in Python.
    - float64 samples are rationals ([Q]); no property below depends on
      rounding.
    - [fitsio] is outside the class: a throughput file is the sequence of
      HDUs that [fitsio.FITS] iterates over, the primary HDU first; an
      atmosphere file is the record array that [fitsio.read] returns.
    - The constructor raises on every input, so the properties of the
      methods are stated for any object, by the attributes it has bound.
    - Of [numpy] and [scipy.interpolate] only what the class calls is
      modelled, with the argument checks that decide whether a call raises. *)

From Stdlib Require Import ZArith QArith Qminmax List Ascii String Lia.
From stdpp Require Import base option list strings gmap.

Local Open Scope string_scope.
Local Open Scope list_scope.

(** ** Python exceptions and outcomes *)

Module Py.

Inductive type_error : Type :=
| NoneNotSubscriptable     (* 'NoneType' object is not subscriptable *)
| NoneNotIterable          (* 'NoneType' object is not iterable *)
| NoneNotOrderable         (* '>=' not supported between 'int' and 'NoneType' *)
| NoneNotADimension        (* np.zeros with None as a dimension *)
| NoneNotAnArray           (* an interpolant evaluated at None *)
| AllcloseMissingB         (* allclose() missing 1 required positional argument: 'b' *)
| CallTakesOneArgument     (* interp1d.__call__ given a second positional argument *)
| ClipMissingBounds        (* np.clip called with the array only *)
| NoneNotCallable.         (* 'NoneType' object is not callable *)

Inductive value_error : Type :=
| ExposureNotFound (expnum : Z)      (* "Exposure {expnum} not found in atm table." *)
| CcdnumOutOfRange (ccdnum : Z)      (* "ccdnum {ccdnum} out of range." *)
| BandNotInTable (band : string)     (* "band {band} not in throughput table." *)
| InterpUnequalLength                (* interp1d: x and y differ in length *)
| InterpNoEntries                    (* interp1d: x and y are empty *)
| InterpBelowRange                   (* a value in x_new is below the interpolation range *)
| InterpAboveRange                   (* a value in x_new is above the interpolation range *)
| OperandsNotBroadcast.              (* operands could not be broadcast together *)

Inductive exn : Type :=
| TypeError (why : type_error)
| ValueError (why : value_error)
| AttributeError (name : string)
| KeyError (key : string)
| IndexError.

Inductive outcome (A : Type) : Type :=
| Return (a : A)
| Raise (e : exn).

Arguments Return {A} a.
Arguments Raise {A} e.


Definition returns {A} (o : outcome A) : Prop := exists a, o = Return a.

(** An attribute slot of an object. *)
Inductive attr (A : Type) : Type :=
| Unset
| PyNone
| Val (a : A).

Arguments Unset {A}.
Arguments PyNone {A}.
Arguments Val {A} a.

(** [x = value] where the right-hand side may be [None]. *)
Definition bind_value {A} (v : option A) : attr A :=
  match v with Some a => Val a | None => PyNone end.

End Py.

Import Py.

(** ** numpy and scipy.interpolate, as far as the class calls them *)

Module Np.

(** [np.atleast_1d] of a one-dimensional sequence. *)
Definition atleast_1d (a : list Q) : list Q := a.

(** [a == b], element by element, for equal lengths. *)
Definition equal (a b : list Q) : list bool :=
  zip_with Qeq_bool a b.

(** [np.allclose(a)]: the second array is a required positional argument,
    so the call with one argument raises before comparing anything. *)
Definition allclose_1 (a : list bool) : outcome bool :=
  Raise (TypeError AllcloseMissingB).

(** [np.clip(a, a_min, a_max)] = minimum(a_max, maximum(a, a_min)). *)
Definition clip (a : list Q) (a_min a_max : Q) : list Q :=
  map (fun v => Qmin a_max (Qmax v a_min)) a.

(** [np.clip(a)] with neither bound. *)
Definition clip_1 (a : list Q) : outcome (list Q) :=
  Raise (TypeError ClipMissingBounds).

(** [1e100]. *)
Definition huge : Q := inject_Z (10 ^ 100).

(** [np.where(column == key)]: the indices of the matching rows. *)
Fixpoint where_eq_from (i : nat) (column : list Z) (key : Z) : list nat :=
  match column with
  | [] => []
  | v :: rest =>
      if Z.eqb v key then i :: where_eq_from (S i) rest key
      else where_eq_from (S i) rest key
  end.

Definition where_eq (column : list Z) (key : Z) : list nat :=
  where_eq_from 0 column key.

(** [rows[u, :]] for an index array [u]. *)
Fixpoint take_rows (rows : list (list Q)) (u : list nat) : outcome (list (list Q)) :=
  match u with
  | [] => Return []
  | i :: u' =>
      match nth_error rows i with
      | None => Raise IndexError
      | Some r =>
          match take_rows rows u' with
          | Return rs => Return (r :: rs)
          | Raise e => Raise e
          end
      end
  end.

(** [a * b] for one-dimensional operands, with broadcasting of a length-1
    operand. *)
Definition multiply (a b : list Q) : outcome (list Q) :=
  if Nat.eqb (length a) (length b) then Return (zip_with Qmult a b)
  else if Nat.eqb (length b) 1 then Return (map (fun x => x * hd 0 b)%Q a)
  else if Nat.eqb (length a) 1 then Return (map (fun y => hd 0 a * y)%Q b)
  else Raise (ValueError OperandsNotBroadcast).

(** [m * b] for a two-dimensional [m] (a list of rows) and a
    one-dimensional [b]: [b] is broadcast along the rows. *)
Fixpoint multiply_rows (m : list (list Q)) (b : list Q) : outcome (list (list Q)) :=
  match m with
  | [] => Return []
  | r :: m' =>
      match multiply r b with
      | Raise e => Raise e
      | Return p =>
          match multiply_rows m' b with
          | Return ps => Return (p :: ps)
          | Raise e => Raise e
          end
      end
  end.

End Np.

Module Interp.

(** [scipy.interpolate.interp1d(x, y)]: linear, [bounds_error] left at its
    default, [x] already increasing. *)
Record interp1d : Type := Build { xs : list Q; ys : list Q }.

Definition new (x y : list Q) : outcome interp1d :=
  if negb (Nat.eqb (length x) (length y)) then Raise (ValueError InterpUnequalLength)
  else if Nat.eqb (length x) 0 then Raise (ValueError InterpNoEntries)
  else Return (Build x y).

(** The value of the piecewise-linear curve through [(x, y)] at [t], for
    [t] within the range of [x]. *)
Fixpoint linear (x y : list Q) (t : Q) : Q :=
  match x, y with
  | x0 :: x', y0 :: y' =>
      match x', y' with
      | x1 :: _, y1 :: _ =>
          if Qle_bool t x1
          then (y0 + (t - x0) * ((y1 - y0) / (x1 - x0)))%Q
          else linear x' y' t
      | _, _ => y0
      end
  | _, _ => 0%Q
  end.

Definition below (f : interp1d) (t : Q) : bool :=
  match xs f with
  | x0 :: _ => negb (Qle_bool x0 t)
  | [] => false
  end.

Definition above (f : interp1d) (t : Q) : bool :=
  match xs f with
  | x0 :: _ => negb (Qle_bool t (List.last (xs f) x0))
  | [] => false
  end.

(** [f(x_new)]. *)
Definition call (f : interp1d) (x_new : list Q) : outcome (list Q) :=
  if existsb (below f) x_new then Raise (ValueError InterpBelowRange)
  else if existsb (above f) x_new then Raise (ValueError InterpAboveRange)
  else Return (map (linear (xs f) (ys f)) x_new).

(** [f(x_new, j)]: [__call__] takes [x_new] only. *)
Definition call_2 (f : interp1d) (x_new : list Q) (j : nat) : outcome (list Q) :=
  Raise (TypeError CallTakesOneArgument).

(** [interp1d(x, y)] for a two-dimensional [y]: one curve per row of [y],
    interpolated along the last axis. *)
Fixpoint new_rows (x : list Q) (y : list (list Q)) : outcome (list interp1d) :=
  match y with
  | [] => Return []
  | r :: y' =>
      match new x r with
      | Raise e => Raise e
      | Return f =>
          match new_rows x y' with
          | Return fs => Return (f :: fs)
          | Raise e => Raise e
          end
      end
  end.

Fixpoint call_rows (fs : list interp1d) (x_new : list Q) : outcome (list (list Q)) :=
  match fs with
  | [] => Return []
  | f :: fs' =>
      match call f x_new with
      | Raise e => Raise e
      | Return v =>
          match call_rows fs' x_new with
          | Return vs => Return (v :: vs)
          | Raise e => Raise e
          end
      end
  end.

End Interp.

(** ** The tables *)

(** One extension of the throughput file, as [hdu.read()] returns it:
    the columns [lambda] and [throughput_avg] and the two-dimensional
    column [throughput_ccd], kept here as the list of its per-detector
    columns [throughput_ccd[:, j]], so that [shape[1]] is its length. *)
Module CcdTable.
Record t : Type := Build {
  lambda : list Q;
  throughput_avg : list Q;
  throughput_ccd : list (list Q)
}.
End CcdTable.

(** The atmosphere table, the one-dimensional record array that
    [fitsio.read] returns: the column [expnum] and the two-dimensional
    column [throughput], one row per table row. *)
Module AtmTable.
Record t : Type := Build {
  expnum : list Z;
  throughput : list (list Q)
}.

(** [atm_data[2:, :]]: a subscript with two indices on the record array,
    which has one dimension; numpy raises IndexError (too many indices),
    whatever the rows. *)
Definition getitem_rows_columns (a : t) : outcome t := Raise IndexError.
End AtmTable.

(** What [fitsio] hands to the class. *)
Module Fits.

(** What [hdu.read()] returns: [None] for an HDU without data, a plain
    array for an image, a record array for a table. A table is taken to
    have the three columns of [CcdTable.t]. *)
Inductive data : Type :=
| NoData
| Image
| Table (t : CcdTable.t).

Record hdu : Type := Build { get_extname : string; read : data }.

(** The data of HDU 0, the primary HDU: FITS lets it hold an image or
    nothing, never a table. *)
Inductive primary : Type :=
| Empty
| WithImage.

(** A file as [for hdu in fits] goes through it: the primary HDU first,
    then the extensions. *)
Record file : Type := File {
  primary_extname : string;
  primary_data : primary;
  extensions : list hdu
}.

Definition primary_hdu (f : file) : hdu :=
  Build (primary_extname f)
    (match primary_data f with
     | Empty => NoData
     | WithImage => Image
     end).

Definition hdus (f : file) : list hdu := primary_hdu f :: extensions f.

(** [extname.split('_')[0]]. *)
Fixpoint split_0 (s : string) : string :=
  match s with
  | EmptyString => EmptyString
  | String c rest =>
      if Ascii.eqb c "_"%char then EmptyString else String c (split_0 rest)
  end.
End Fits.

(** ** The object *)

Record FgcmDesTransmission : Type := Object {
  _ccd_data : attr (gmap string Fits.data);
  bands : attr (list string);
  nccd : attr nat;
  _atm_data : attr AtmTable.t;
  _atm_wavelengths : attr (list Q);
  _atm_std : attr (list Q);
  _wavelengths : attr (list Q);
  _std_ifunc : attr Interp.interp1d;
  _band_tput_interp : attr (gmap string (list Q));
  _band_ccd_interp : attr (gmap string (list (list Q)))
}.

(** An object before [__init__] has bound anything. *)
Definition blank : FgcmDesTransmission :=
  Object Unset Unset Unset Unset Unset Unset Unset Unset Unset Unset.

(** ** Methods as state transformers *)

Definition method (A : Type) : Type :=
  FgcmDesTransmission -> outcome A * FgcmDesTransmission.

Definition ret {A} (a : A) : method A := fun self => (Return a, self).

Definition raise {A} (e : exn) : method A := fun self => (Raise e, self).

Definition bind {A B} (m : method A) (k : A -> method B) : method B :=
  fun self =>
    match m self with
    | (Return a, self') => k a self'
    | (Raise e, self') => (Raise e, self')
    end.

Definition lift {A} (o : outcome A) : method A := fun self => (o, self).

Notation "'do' x <- c ; k" := (bind c (fun x => k))
  (at level 10, x name, c at level 100, k at level 200, only parsing).
Notation "'do_' c ; k" := (bind c (fun _ => k))
  (at level 10, c at level 100, k at level 200, only parsing).

(** [self.name], which raises AttributeError while [name] is unbound. *)
Definition getattr {A} (name : string) (slot : FgcmDesTransmission -> attr A)
  : method (option A) :=
  fun self =>
    match slot self with
    | Unset => (Raise (AttributeError name), self)
    | PyNone => (Return None, self)
    | Val a => (Return (Some a), self)
    end.

(** A use of a value that [None] does not support. *)
Definition need {A} (why : type_error) (v : option A) : method A :=
  match v with
  | Some a => ret a
  | None => raise (TypeError why)
  end.

(** [d[key]] on a dict. *)
Definition getitem {A} (d : gmap string A) (key : string) : method A :=
  match d !! key with
  | Some a => ret a
  | None => raise (KeyError key)
  end.

(** [m[:, j]] on a matrix kept as its columns. *)
Definition column (m : list (list Q)) (j : nat) : method (list Q) :=
  match nth_error m j with
  | Some c => ret c
  | None => raise IndexError
  end.

(** [m[i, :]] on a matrix kept as its rows. *)
Definition row (m : list (list Q)) (i : nat) : method (list Q) :=
  match nth_error m i with
  | Some r => ret r
  | None => raise IndexError
  end.

(** [for a in l: body(a)]. *)
Fixpoint for_each {A} (l : list A) (body : A -> method unit) : method unit :=
  match l with
  | [] => ret tt
  | a :: l' => do_ body a ; for_each l' body
  end.

(** Attribute assignment. *)
Definition set__ccd_data (v : attr (gmap string Fits.data)) : method unit :=
  fun self =>
    (Return tt,
     Object v (bands self) (nccd self) (_atm_data self) (_atm_wavelengths self)
       (_atm_std self) (_wavelengths self) (_std_ifunc self)
       (_band_tput_interp self) (_band_ccd_interp self)).

Definition set_bands (v : attr (list string)) : method unit :=
  fun self =>
    (Return tt,
     Object (_ccd_data self) v (nccd self) (_atm_data self) (_atm_wavelengths self)
       (_atm_std self) (_wavelengths self) (_std_ifunc self)
       (_band_tput_interp self) (_band_ccd_interp self)).

Definition set_nccd (v : attr nat) : method unit :=
  fun self =>
    (Return tt,
     Object (_ccd_data self) (bands self) v (_atm_data self) (_atm_wavelengths self)
       (_atm_std self) (_wavelengths self) (_std_ifunc self)
       (_band_tput_interp self) (_band_ccd_interp self)).

Definition set__atm_data (v : attr AtmTable.t) : method unit :=
  fun self =>
    (Return tt,
     Object (_ccd_data self) (bands self) (nccd self) v (_atm_wavelengths self)
       (_atm_std self) (_wavelengths self) (_std_ifunc self)
       (_band_tput_interp self) (_band_ccd_interp self)).

Definition set__atm_wavelengths (v : attr (list Q)) : method unit :=
  fun self =>
    (Return tt,
     Object (_ccd_data self) (bands self) (nccd self) (_atm_data self) v
       (_atm_std self) (_wavelengths self) (_std_ifunc self)
       (_band_tput_interp self) (_band_ccd_interp self)).

Definition set__atm_std (v : attr (list Q)) : method unit :=
  fun self =>
    (Return tt,
     Object (_ccd_data self) (bands self) (nccd self) (_atm_data self)
       (_atm_wavelengths self) v (_wavelengths self) (_std_ifunc self)
       (_band_tput_interp self) (_band_ccd_interp self)).

Definition set__wavelengths (v : attr (list Q)) : method unit :=
  fun self =>
    (Return tt,
     Object (_ccd_data self) (bands self) (nccd self) (_atm_data self)
       (_atm_wavelengths self) (_atm_std self) v (_std_ifunc self)
       (_band_tput_interp self) (_band_ccd_interp self)).

Definition set__std_ifunc (v : attr Interp.interp1d) : method unit :=
  fun self =>
    (Return tt,
     Object (_ccd_data self) (bands self) (nccd self) (_atm_data self)
       (_atm_wavelengths self) (_atm_std self) (_wavelengths self) v
       (_band_tput_interp self) (_band_ccd_interp self)).

Definition set__band_tput_interp (v : attr (gmap string (list Q))) : method unit :=
  fun self =>
    (Return tt,
     Object (_ccd_data self) (bands self) (nccd self) (_atm_data self)
       (_atm_wavelengths self) (_atm_std self) (_wavelengths self) (_std_ifunc self)
       v (_band_ccd_interp self)).

Definition set__band_ccd_interp (v : attr (gmap string (list (list Q)))) : method unit :=
  fun self =>
    (Return tt,
     Object (_ccd_data self) (bands self) (nccd self) (_atm_data self)
       (_atm_wavelengths self) (_atm_std self) (_wavelengths self) (_std_ifunc self)
       (_band_tput_interp self) v).

(** ** The class *)

(** [data[name]] for a column name: the columns of a table; [None] and a
    plain array have none. *)
Definition columns (data : Fits.data) : method CcdTable.t :=
  match data with
  | Fits.NoData => raise (TypeError NoneNotSubscriptable)
  | Fits.Image => raise IndexError
  | Fits.Table t => ret t
  end.

(** [self._ccd_data[band]], read for one of its columns. *)
Definition ccd_data_of (band : string) : method CcdTable.t :=
  do tables <- getattr "_ccd_data" _ccd_data ;
  do tables <- need NoneNotSubscriptable tables ;
  do data <- getitem tables band ;
  columns data.

(** [self._wavelengths], used as an array. *)
Definition wavelengths_array : method (list Q) :=
  do w <- getattr "_wavelengths" _wavelengths ;
  need NoneNotAnArray w.

(** [self._wavelengths.size]. *)
Definition wavelengths_size : method nat :=
  do w <- getattr "_wavelengths" _wavelengths ;
  match w with
  | Some w => ret (length w)
  | None => raise (AttributeError "size")
  end.

(** Lines 33-37: the test that guards the early [return]; its value says
    whether the [return] is taken. *)
Definition grid_matches (wavelengths : list Q) : method bool :=
  do cached <- getattr "_wavelengths" _wavelengths ;
  match cached with
  | Some cached =>
      if Nat.eqb (length wavelengths) (length cached)
      then lift (Np.allclose_1 (Np.equal wavelengths cached))
      else ret false
  | None => ret false
  end.

(** Lines 50-52: the body of the loop over detectors. *)
Definition interp_ccd (band : string) (j : nat) : method unit :=
  do tbl <- ccd_data_of band ;
  do tbl' <- ccd_data_of band ;
  do col <- column (CcdTable.throughput_ccd tbl') j ;
  do ifunc <- lift (Interp.new (CcdTable.lambda tbl) col) ;
  do w <- wavelengths_array ;
  do v <- lift (Interp.call_2 ifunc w j) ;
  do v <- lift (Np.clip_1 v) ;
  do cache <- getattr "_band_ccd_interp" _band_ccd_interp ;
  do cache <- need NoneNotSubscriptable cache ;
  do m <- getitem cache band ;
  do _ <- column m j ;
  set__band_ccd_interp (Val (<[band := <[j := v]> m]> cache)).

(** Lines 45-52: the body of the loop over bands. *)
Definition interp_band (band : string) : method unit :=
  do tbl <- ccd_data_of band ;
  do tbl' <- ccd_data_of band ;
  do ifunc <- lift (Interp.new (CcdTable.lambda tbl) (CcdTable.throughput_avg tbl')) ;
  do w <- wavelengths_array ;
  do v <- lift (Interp.call ifunc w) ;
  do tput <- getattr "_band_tput_interp" _band_tput_interp ;
  do tput <- need NoneNotSubscriptable tput ;
  do_ set__band_tput_interp (Val (<[band := Np.clip v 0 Np.huge]> tput)) ;
  do size <- wavelengths_size ;
  do n <- getattr "nccd" nccd ;
  do n <- need NoneNotADimension n ;
  do cache <- getattr "_band_ccd_interp" _band_ccd_interp ;
  do cache <- need NoneNotSubscriptable cache ;
  do_ set__band_ccd_interp
        (Val (<[band := repeat (repeat 0%Q size) n]> cache)) ;
  do n <- getattr "nccd" nccd ;
  do n <- need NoneNotADimension n ;
  for_each (seq 0 n) (interp_ccd band).

(** Lines 44-52: the loop over the bands. *)
Definition interp_bands : method unit :=
  do bs <- getattr "bands" bands ;
  do bs <- need NoneNotIterable bs ;
  for_each bs interp_band.

(** Lines 39-52: store the grid, empty both caches, refill them. *)
Definition rebuild (wavelengths : list Q) : method unit :=
  do_ set__wavelengths (Val (Np.atleast_1d wavelengths)) ;
  do_ set__band_tput_interp (Val ∅) ;
  do_ set__band_ccd_interp (Val ∅) ;
  interp_bands.

Definition set_wavelengths (wavelengths : list Q) : method unit :=
  do matched <- grid_matches wavelengths ;
  if matched : bool then ret tt
  else rebuild wavelengths.

Definition get_wavelengths : method (option (list Q)) :=
  getattr "_wavelengths" _wavelengths.

(** Lines 93-95: [ccd_index < 0 or ccd_index >= self.nccd]. *)
Definition ccd_index_out_of_range (ccd_index : Z) : method bool :=
  if (ccd_index <? 0)%Z then ret true
  else
    do n <- getattr "nccd" nccd ;
    do n <- need NoneNotOrderable n ;
    ret (Z.of_nat n <=? ccd_index)%Z.

(** The result is two-dimensional: [throughput[u, :]] has one row per
    matching table row, and the product broadcasts the detector column
    along those rows. *)
Definition get_transmission (band : string) (expnum ccdnum : Z)
    (wavelengths : option (list Q)) : method (list (list Q)) :=
  do_ match wavelengths with
      | Some w => set_wavelengths w
      | None => ret tt
      end ;
  do atm_data <- getattr "_atm_data" _atm_data ;
  do atm_data <- need NoneNotSubscriptable atm_data ;
  let u := Np.where_eq (AtmTable.expnum atm_data) expnum in
  if Nat.eqb (length u) 0 then raise (ValueError (ExposureNotFound expnum))
  else
    let ccd_index := (ccdnum - 1)%Z in
    do out <- ccd_index_out_of_range ccd_index ;
    if out : bool then raise (ValueError (CcdnumOutOfRange ccdnum))
    else
      do cache <- getattr "_band_ccd_interp" _band_ccd_interp ;
      do cache <- need NoneNotIterable cache ;
      match cache !! band with
      | None => raise (ValueError (BandNotInTable band))
      | Some _ =>
          do x <- getattr "_atm_wavelengths" _atm_wavelengths ;
          do x <- need NoneNotAnArray x ;
          do atm_data <- getattr "_atm_data" _atm_data ;
          do atm_data <- need NoneNotSubscriptable atm_data ;
          do y <- lift (Np.take_rows (AtmTable.throughput atm_data) u) ;
          do ifunc <- lift (Interp.new_rows x y) ;
          do w <- wavelengths_array ;
          do v <- lift (Interp.call_rows ifunc w) ;
          let atm := map (fun r => Np.clip r 0 Np.huge) v in
          do cache <- getattr "_band_ccd_interp" _band_ccd_interp ;
          do cache <- need NoneNotSubscriptable cache ;
          do m <- getitem cache band ;
          do col <- column m (Z.to_nat ccd_index) ;
          lift (Np.multiply_rows atm col)
      end.

(** Lines 124-126: the interpolant of the standard atmosphere, built on
    the first call. *)
Definition memoize_std_ifunc : method unit :=
  do f <- getattr "_std_ifunc" _std_ifunc ;
  match f with
  | None =>
      do x <- getattr "_atm_wavelengths" _atm_wavelengths ;
      do x <- need NoneNotAnArray x ;
      do y <- getattr "_atm_std" _atm_std ;
      do y <- need NoneNotAnArray y ;
      do ifunc <- lift (Interp.new x y) ;
      set__std_ifunc (Val ifunc)
  | Some _ => ret tt
  end.

(** Lines 130-135: the band test and the product. *)
Definition std_product (band : string) : method (list Q) :=
  do cache <- getattr "_band_tput_interp" _band_tput_interp ;
  do cache <- need NoneNotIterable cache ;
  match cache !! band with
  | None => raise (ValueError (BandNotInTable band))
  | Some _ =>
      do f <- getattr "_std_ifunc" _std_ifunc ;
      do f <- need NoneNotCallable f ;
      do w <- wavelengths_array ;
      do v <- lift (Interp.call f w) ;
      let atm := Np.clip v 0 Np.huge in
      do cache <- getattr "_band_tput_interp" _band_tput_interp ;
      do cache <- need NoneNotSubscriptable cache ;
      do tput <- getitem cache band ;
      lift (Np.multiply atm tput)
  end.

Definition get_std_transmission (band : string)
    (wavelengths : option (list Q)) : method (list Q) :=
  do_ memoize_std_ifunc ;
  do_ match wavelengths with
      | Some w => set_wavelengths w
      | None => ret tt
      end ;
  std_product band.

(** Lines 150-155: the body of the loop over the HDUs. *)
Definition read_hdu (hdu : Fits.hdu) : method unit :=
  let parts_0 := Fits.split_0 (Fits.get_extname hdu) in
  do tables <- getattr "_ccd_data" _ccd_data ;
  do tables <- need NoneNotSubscriptable tables ;
  do_ set__ccd_data (Val (<[parts_0 := Fits.read hdu]> tables)) ;
  do bs <- getattr "bands" bands ;
  do bs <- need NoneNotSubscriptable bs ;
  do_ set_bands (Val (bs ++ [parts_0])) ;
  do n <- getattr "nccd" nccd ;
  match n with
  | None =>
      do tbl <- ccd_data_of parts_0 ;
      set_nccd (Val (length (CcdTable.throughput_ccd tbl)))
  | Some _ => ret tt
  end.

(** The function has no [return] statement: its value is [None]. *)
Definition _read_ccd_file (ccd_file : Fits.file)
  : method (option (gmap string Fits.data)) :=
  do_ set__ccd_data (Val ∅) ;
  do_ set_bands (Val []) ;
  do_ set_nccd PyNone ;
  do_ for_each (Fits.hdus ccd_file) read_hdu ;
  ret None.

(** The function has no [return] statement: its value is [None]. *)
Definition _read_atm_file (atm_file : AtmTable.t) : method (option AtmTable.t) :=
  let atm_data := atm_file in
  do r0 <- row (AtmTable.throughput atm_data) 0 ;
  do_ set__atm_wavelengths (Val r0) ;
  do r1 <- row (AtmTable.throughput atm_data) 1 ;
  do_ set__atm_std (Val r1) ;
  do rest <- lift (AtmTable.getitem_rows_columns atm_data) ;
  do_ set__atm_data (Val rest) ;
  ret None.

Definition __init__ (ccd_file : Fits.file) (atm_file : AtmTable.t) : method unit :=
  do r <- _read_ccd_file ccd_file ;
  do_ set__ccd_data (bind_value r) ;
  do r <- _read_atm_file atm_file ;
  do_ set__atm_data (bind_value r) ;
  do_ set__wavelengths PyNone ;
  set__std_ifunc PyNone.

(** [FgcmDesTransmission(ccd_file, atm_file)]: the object, when the
    constructor returns. *)
Definition construct (ccd_file : Fits.file) (atm_file : AtmTable.t)
  : outcome FgcmDesTransmission :=
  match __init__ ccd_file atm_file blank with
  | (Return _, self) => Return self
  | (Raise e, _) => Raise e
  end.

(** ** A small data set *)

Module Demo.

Definition grid : list Q := [3000; 7000; 11000]%Q.

Definition table : CcdTable.t :=
  CcdTable.Build grid [0; 9 # 10; 0]%Q [[0; 8 # 10; 0]%Q; [0; 7 # 10; 0]%Q].

Definition ccd_file : Fits.file :=
  Fits.File "" Fits.Empty
    [Fits.Build "g_throughput" (Fits.Table table);
     Fits.Build "r_throughput" (Fits.Table table);
     Fits.Build "i_throughput" (Fits.Table table);
     Fits.Build "z_throughput" (Fits.Table table);
     Fits.Build "Y_throughput" (Fits.Table table)].

Definition atm_file : AtmTable.t :=
  AtmTable.Build [0; 0; 226650; 226651]%Z
    [grid; [0; 9 # 10; 0]%Q; [0; 8 # 10; 0]%Q; [0; 7 # 10; 0]%Q].

(** An object without tables: both table attributes are [None], five
    bands, no grid, no cache bound. *)
Definition fresh : FgcmDesTransmission :=
  Object PyNone (Val ["g"; "r"; "i"; "z"; "Y"]) (Val 2%nat) PyNone
    (Val grid) (Val [0; 9 # 10; 0]%Q) PyNone PyNone Unset Unset.

(** The same without bands. *)
Definition fresh_no_band : FgcmDesTransmission :=
  Object PyNone (Val []) PyNone PyNone
    (Val grid) (Val [0; 9 # 10; 0]%Q) PyNone PyNone Unset Unset.

End Demo.

(** ** Calls and what they keep

    What a caller can do with an object: the four public methods. The
    object after a call is the one the method leaves, whether it returned
    or raised. *)

Inductive call : Type :=
| Call_set_wavelengths (wavelengths : list Q)
| Call_get_wavelengths
| Call_get_transmission (band : string) (expnum ccdnum : Z)
    (wavelengths : option (list Q))
| Call_get_std_transmission (band : string) (wavelengths : option (list Q)).

Definition after (c : call) (self : FgcmDesTransmission) : FgcmDesTransmission :=
  match c with
  | Call_set_wavelengths w => snd (set_wavelengths w self)
  | Call_get_wavelengths => snd (get_wavelengths self)
  | Call_get_transmission band expnum ccdnum w =>
      snd (get_transmission band expnum ccdnum w self)
  | Call_get_std_transmission band w => snd (get_std_transmission band w self)
  end.

(** A method keeps an attribute (or any function of the object) when the
    object it leaves has it unchanged, whether the method returned or
    raised. *)
Definition keeps {A B} (slot : FgcmDesTransmission -> B) (m : method A) : Prop :=
  forall self, slot (snd (m self)) = slot self.

(** The attributes the reader helpers fill: the loaded tables. *)
Definition tables (self : FgcmDesTransmission) :=
  (_ccd_data self, bands self, nccd self,
   _atm_data self, _atm_wavelengths self, _atm_std self).

(** The object after lines 39-43, before the loop over the bands. *)
Definition regridded (g : list Q) (self : FgcmDesTransmission) : FgcmDesTransmission :=
  Object (_ccd_data self) (bands self) (nccd self) (_atm_data self)
    (_atm_wavelengths self) (_atm_std self) (Val g) (_std_ifunc self)
    (Val ∅) (Val ∅).



(** Whether a name holds an underscore. *)
Fixpoint has_underscore (s : string) : bool :=
  match s with
  | EmptyString => false
  | String c rest => if Ascii.eqb c "_"%char then true else has_underscore rest
  end.

(** The attributes [set_wavelengths] assigns. *)
Definition grid_and_caches (self : FgcmDesTransmission) :=
  (_wavelengths self, _band_tput_interp self, _band_ccd_interp self).

(** The detector count and the band list. *)
Definition bands_and_nccd (self : FgcmDesTransmission) :=
  (bands self, nccd self).

(** The exception of line 155 on the primary HDU: [None] has no
    columns, nor has a plain array. *)
Definition primary_error (f : Fits.file) : exn :=
  match Fits.primary_data f with
  | Fits.Empty => TypeError NoneNotSubscriptable
  | Fits.WithImage => IndexError
  end.





(** Band [b] has an entry in one of the two caches. *)
Definition cached_band (self : FgcmDesTransmission) (b : string) : Prop :=
  (exists d, _band_tput_interp self = Val d /\ is_Some (d !! b)) \/
  (exists d, _band_ccd_interp self = Val d /\ is_Some (d !! b)).

(** Every cached band is one of [self.bands], as the loop of line 44
    stores them. *)
Definition caches_within_bands (self : FgcmDesTransmission) : Prop :=
  forall b, cached_band self b -> exists bs, bands self = Val bs /\ In b bs.

(** The object after a sequence of calls, the first call first. *)
Definition run (calls : list call) (self : FgcmDesTransmission)
  : FgcmDesTransmission :=
  foldl (fun s c => after c s) self calls.

(** Objects that hold tables and caches, as the reader helpers and
    [set_wavelengths] are written to leave them. *)
Module Loaded.

Definition atm_data : AtmTable.t :=
  AtmTable.Build [226650; 226650; 226651]%Z
    [[0; 8 # 10; 0]%Q; [0; 6 # 10; 0]%Q; [0; 7 # 10; 0]%Q].

(** Tables and empty caches, no grid. *)
Definition uncached : FgcmDesTransmission :=
  Object (Val {["g" := Fits.Table Demo.table]}) (Val ["g"]) (Val 2%nat)
    (Val atm_data)
    (Val Demo.grid) (Val [0; 9 # 10; 0]%Q) PyNone PyNone (Val ∅) (Val ∅).

(** Tables, a grid, and caches filled in for band g. *)
Definition cached : FgcmDesTransmission :=
  Object (Val {["g" := Fits.Table Demo.table]}) (Val ["g"]) (Val 2%nat)
    (Val atm_data)
    (Val Demo.grid) (Val [0; 9 # 10; 0]%Q) (Val Demo.grid) PyNone
    (Val {["g" := [0; 9 # 10; 0]%Q]})
    (Val {["g" := [[0; 8 # 10; 0]%Q; [0; 7 # 10; 0]%Q]]}).

End Loaded.

(** ** Frame lemmas: which attributes a method leaves alone *)

Section Frame.

Context {B : Type} (slot : FgcmDesTransmission -> B).

Lemma keeps_ret {A} (a : A) : keeps slot (ret a).
Proof. intros self. reflexivity. Qed.

Lemma keeps_raise {A} (e : exn) : keeps slot (@raise A e).
Proof. intros self. reflexivity. Qed.

Lemma keeps_lift {A} (o : outcome A) : keeps slot (lift o).
Proof. intros self. reflexivity. Qed.

Lemma keeps_getattr {A} name (s : FgcmDesTransmission -> attr A) :
  keeps slot (getattr name s).
Proof. intros self. unfold getattr. destruct (s self); reflexivity. Qed.

Lemma keeps_need {A} why (v : option A) : keeps slot (need why v).
Proof. destruct v; [apply keeps_ret | apply keeps_raise]. Qed.

Lemma keeps_getitem {A} (d : gmap string A) key : keeps slot (getitem d key).
Proof. unfold getitem. destruct (d !! key); [apply keeps_ret | apply keeps_raise]. Qed.

Lemma keeps_column m j : keeps slot (column m j).
Proof. unfold column. destruct (nth_error m j); [apply keeps_ret | apply keeps_raise]. Qed.

Lemma keeps_row m i : keeps slot (row m i).
Proof. unfold row. destruct (nth_error m i); [apply keeps_ret | apply keeps_raise]. Qed.

Lemma keeps_bind {A C} (m : method A) (k : A -> method C) :
  keeps slot m -> (forall a, keeps slot (k a)) -> keeps slot (bind m k).
Proof.
  intros Hm Hk self. unfold bind.
  specialize (Hm self). destruct (m self) as [[a | e] self']; simpl in *.
  - rewrite Hk. exact Hm.
  - exact Hm.
Qed.

Lemma keeps_for_each {A} (l : list A) (body : A -> method unit) :
  (forall a, keeps slot (body a)) -> keeps slot (for_each l body).
Proof.
  intros Hbody. induction l as [| a l IH]; simpl.
  - apply keeps_ret.
  - apply keeps_bind; [apply Hbody | intros _; exact IH].
Qed.

End Frame.

Create HintDb frame.

(** One step of a frame proof: follow the structure of the method. *)
Ltac keeps_step :=
  lazymatch goal with
  | |- keeps _ (bind _ _) => apply keeps_bind; [| intros ?]
  | |- keeps _ (ret _) => apply keeps_ret
  | |- keeps _ (raise _) => apply keeps_raise
  | |- keeps _ (lift _) => apply keeps_lift
  | |- keeps _ (getattr _ _) => apply keeps_getattr
  | |- keeps _ (need _ _) => apply keeps_need
  | |- keeps _ (getitem _ _) => apply keeps_getitem
  | |- keeps _ (column _ _) => apply keeps_column
  | |- keeps _ (row _ _) => apply keeps_row
  | |- keeps _ (for_each _ _) => apply keeps_for_each; intros ?
  | |- keeps _ (match ?x with _ => _ end) => destruct x
  | |- keeps _ (let _ := _ in _) => cbv zeta
  | |- keeps _ _ => solve [intros ?; reflexivity | auto with frame]
  end.


Ltac keeps_auto :=
  unfold get_std_transmission, get_transmission, get_wavelengths,
    set_wavelengths, rebuild, interp_bands, interp_band, interp_ccd,
    grid_matches, memoize_std_ifunc, std_product, ccd_index_out_of_range,
    ccd_data_of, columns, wavelengths_array, wavelengths_size;
  repeat keeps_step.

Lemma interp_band_keeps_tables band : keeps tables (interp_band band).
Proof. keeps_auto. Qed.

Lemma interp_band_keeps_wavelengths band : keeps _wavelengths (interp_band band).
Proof. keeps_auto. Qed.

Lemma interp_band_keeps_std_ifunc band : keeps _std_ifunc (interp_band band).
Proof. keeps_auto. Qed.

#[export] Hint Resolve interp_band_keeps_tables interp_band_keeps_wavelengths
  interp_band_keeps_std_ifunc : frame.

Lemma set_wavelengths_keeps_tables w : keeps tables (set_wavelengths w).
Proof. keeps_auto. Qed.

Lemma set_wavelengths_keeps_std_ifunc w : keeps _std_ifunc (set_wavelengths w).
Proof. keeps_auto. Qed.

#[export] Hint Resolve set_wavelengths_keeps_tables
  set_wavelengths_keeps_std_ifunc : frame.

Lemma get_wavelengths_keeps {B} (slot : FgcmDesTransmission -> B) :
  keeps slot get_wavelengths.
Proof. keeps_auto. Qed.

Lemma get_transmission_keeps_tables band expnum ccdnum w :
  keeps tables (get_transmission band expnum ccdnum w).
Proof. keeps_auto. Qed.

Lemma get_transmission_keeps_std_ifunc band expnum ccdnum w :
  keeps _std_ifunc (get_transmission band expnum ccdnum w).
Proof. keeps_auto. Qed.

Lemma get_std_transmission_keeps_tables band w :
  keeps tables (get_std_transmission band w).
Proof. keeps_auto. Qed.

Lemma after_keeps_tables c self : tables (after c self) = tables self.
Proof.
  destruct c; simpl.
  - apply set_wavelengths_keeps_tables.
  - apply get_wavelengths_keeps.
  - apply get_transmission_keeps_tables.
  - apply get_std_transmission_keeps_tables.
Qed.

(** ** The reader helpers and the constructor *)

(** Run the straight-line part of a method on an object whose attributes
    are known. *)
Ltac py_step :=
  cbv [bind getattr need ret raise lift bind_value
       set__ccd_data set_bands set_nccd set__atm_data set__atm_wavelengths
       set__atm_std set__wavelengths set__std_ifunc set__band_tput_interp
       set__band_ccd_interp
       _ccd_data bands nccd _atm_data _atm_wavelengths _atm_std _wavelengths
       _std_ifunc _band_tput_interp _band_ccd_interp].

Lemma for_each_cons {A} (a : A) l body self :
  for_each (a :: l) body self =
  match body a self with
  | (Return _, self') => for_each l body self'
  | (Raise e, self') => (Raise e, self')
  end.
Proof. reflexivity. Qed.


(** The loop of lines 149-155 stops in its first iteration: the primary
    HDU is stored under its name, the name is appended to [bands], and
    line 155 asks the stored value for a column. *)
Lemma read_ccd_file_raises ccd_file self :
  _read_ccd_file ccd_file self
  = (Raise (primary_error ccd_file),
     Object
       (Val (<[Fits.split_0 (Fits.primary_extname ccd_file) :=
               Fits.read (Fits.primary_hdu ccd_file)]> ∅))
       (Val [Fits.split_0 (Fits.primary_extname ccd_file)])
       PyNone
       (_atm_data self) (_atm_wavelengths self) (_atm_std self)
       (_wavelengths self) (_std_ifunc self)
       (_band_tput_interp self) (_band_ccd_interp self)).
Proof.
  destruct self as [a1 a2 a3 a4 a5 a6 a7 a8 a9 a10].
  unfold _read_ccd_file, Fits.hdus. py_step. rewrite for_each_cons.
  unfold read_hdu, ccd_data_of, getitem. py_step.
  rewrite lookup_insert_eq. unfold columns, primary_error, Fits.primary_hdu.
  simpl. destruct (Fits.primary_data ccd_file); reflexivity.
Qed.

(** [_read_atm_file] binds the rows it finds and raises at the latest at
    line 171. *)
Lemma read_atm_file_raises atm_file self :
  _read_atm_file atm_file self
  = (Raise IndexError,
     match AtmTable.throughput atm_file with
     | [] => self
     | [r0] =>
         Object (_ccd_data self) (bands self) (nccd self) (_atm_data self)
           (Val r0) (_atm_std self) (_wavelengths self) (_std_ifunc self)
           (_band_tput_interp self) (_band_ccd_interp self)
     | r0 :: r1 :: _ =>
         Object (_ccd_data self) (bands self) (nccd self) (_atm_data self)
           (Val r0) (Val r1) (_wavelengths self) (_std_ifunc self)
           (_band_tput_interp self) (_band_ccd_interp self)
     end).
Proof.
  destruct self as [a1 a2 a3 a4 a5 a6 a7 a8 a9 a10].
  unfold _read_atm_file, row, AtmTable.getitem_rows_columns.
  destruct (AtmTable.throughput atm_file) as [| r0 [| r1 rest]];
    reflexivity.
Qed.

Lemma init_raises ccd_file atm_file self :
  fst (__init__ ccd_file atm_file self) = Raise (primary_error ccd_file).
Proof.
  unfold __init__. unfold bind at 1. rewrite read_ccd_file_raises.
  reflexivity.
Qed.

Lemma construct_raises ccd_file atm_file :
  construct ccd_file atm_file = Raise (primary_error ccd_file).
Proof.
  unfold construct. pose proof (init_raises ccd_file atm_file blank) as H.
  destruct (__init__ ccd_file atm_file blank) as [[[] | e] self];
    simpl in H; [discriminate | congruence].
Qed.

(** ** [set_wavelengths] on an object whose [_ccd_data] is [None] *)




(** ** [set_wavelengths] on any object *)

Lemma interp_bands_keeps_wavelengths : keeps _wavelengths interp_bands.
Proof. keeps_auto. Qed.

(** The guard of the early [return] never holds: it is false, or it
    raises. *)
Lemma grid_matches_cases g self :
  grid_matches g self = (Return false, self) \/
  exists e, grid_matches g self = (Raise e, self).
Proof.
  unfold grid_matches, bind, getattr.
  destruct (_wavelengths self) as [| | cached].
  - right. eexists. reflexivity.
  - left. reflexivity.
  - destruct (Nat.eqb (length g) (length cached)).
    + right. eexists. reflexivity.
    + left. reflexivity.
Qed.

Lemma rebuild_wavelengths g self :
  _wavelengths (snd (rebuild g self)) = Val g.
Proof.
  destruct self as [a1 a2 a3 a4 a5 a6 a7 a8 a9 a10].
  cbv [rebuild bind set__wavelengths set__band_tput_interp
       set__band_ccd_interp].
  rewrite interp_bands_keeps_wavelengths. reflexivity.
Qed.

Lemma set_wavelengths_returns g self self' :
  set_wavelengths g self = (Return tt, self') ->
  _wavelengths self' = Val g.
Proof.
  unfold set_wavelengths, bind.
  destruct (grid_matches_cases g self) as [-> | [e ->]]; [| discriminate].
  intros H. rewrite <- (rebuild_wavelengths g self), H. reflexivity.
Qed.

(** A grid as long as the cached one reaches [np.allclose], which is
    called with one argument. *)
Lemma set_wavelengths_same_length g cached self :
  _wavelengths self = Val cached ->
  length g = length cached ->
  set_wavelengths g self = (Raise (TypeError AllcloseMissingB), self).
Proof.
  intros Hw Hlen. unfold set_wavelengths, grid_matches, bind, getattr.
  rewrite Hw, Hlen, Nat.eqb_refl. reflexivity.
Qed.

Lemma set_wavelengths_stores_length g self :
  _wavelengths self <> Unset ->
  exists cached,
    _wavelengths (snd (set_wavelengths g self)) = Val cached /\
    length g = length cached.
Proof.
  intros Hw. unfold set_wavelengths, grid_matches, bind at 1, bind at 1, getattr.
  destruct (_wavelengths self) as [| | cached] eqn:E; [contradiction | |].
  - exists g. split; [apply rebuild_wavelengths | reflexivity].
  - destruct (Nat.eqb (length g) (length cached)) eqn:El.
    + exists cached. simpl. split; [exact E |]. apply Nat.eqb_eq, El.
    + exists g. split; [apply rebuild_wavelengths | reflexivity].
Qed.

(** ** The argument checks of the queries, on an object that holds tables

    These lemmas are about any object whose table and cache attributes
    are bound to values. They record what lines 89-98 and 130-131 test
    for. *)

Lemma where_eq_from_nil i column key :
  ~ In key column -> Np.where_eq_from i column key = [].
Proof.
  revert i. induction column as [| v rest IH]; intros i Hnot; simpl.
  - reflexivity.
  - destruct (Z.eqb_spec v key) as [-> | _].
    + exfalso. apply Hnot. left. reflexivity.
    + apply IH. intros Hin. apply Hnot. right. exact Hin.
Qed.

Lemma where_eq_from_cons i column key :
  In key column -> Np.where_eq_from i column key <> [].
Proof.
  revert i. induction column as [| v rest IH]; intros i Hin; simpl.
  - destruct Hin.
  - destruct (Z.eqb_spec v key) as [-> | Hne].
    + discriminate.
    + apply IH. destruct Hin as [Heq | Hin]; [contradiction | exact Hin].
Qed.

Lemma exposure_check band expnum ccdnum self t :
  _atm_data self = Val t ->
  ~ In expnum (AtmTable.expnum t) ->
  get_transmission band expnum ccdnum None self =
  (Raise (ValueError (ExposureNotFound expnum)), self).
Proof.
  intros Hatm Hnot. unfold get_transmission, bind, ret, getattr, need.
  rewrite Hatm. unfold ret, Np.where_eq.
  rewrite where_eq_from_nil by exact Hnot. reflexivity.
Qed.

Lemma ccdnum_check band expnum ccdnum self t n :
  _atm_data self = Val t ->
  In expnum (AtmTable.expnum t) ->
  nccd self = Val n ->
  (ccdnum < 1 \/ Z.of_nat n < ccdnum)%Z ->
  get_transmission band expnum ccdnum None self =
  (Raise (ValueError (CcdnumOutOfRange ccdnum)), self).
Proof.
  intros Hatm Hin Hn Hout.
  unfold get_transmission, bind, ret, getattr, need.
  rewrite Hatm. unfold ret, Np.where_eq.
  pose proof (where_eq_from_cons 0 _ _ Hin) as Hu.
  destruct (Np.where_eq_from 0 (AtmTable.expnum t) expnum) as [| i u];
    [contradiction |].
  simpl. unfold ccd_index_out_of_range, bind, getattr, need, ret, raise.
  destruct (Z.ltb_spec (ccdnum - 1) 0) as [_ | Hge]; [reflexivity |].
  rewrite Hn.
  destruct (Z.leb_spec (Z.of_nat n) (ccdnum - 1)) as [_ | Hlt]; [reflexivity |].
  lia.
Qed.


(** The detector step of the rebuild (lines 50-52) raises on every
    object, and stores nothing: the interpolant is called with a second
    argument. *)
Lemma bind_pure_raises {A B} (m : method A) (k : A -> method B) self :
  keeps (fun s => s) m ->
  (forall a, exists e, k a self = (Raise e, self)) ->
  exists e, bind m k self = (Raise e, self).
Proof.
  intros Hm Hk. unfold bind. specialize (Hm self).
  destruct (m self) as [[a | e] self']; simpl in Hm; subst self'.
  - apply Hk.
  - eexists. reflexivity.
Qed.

Lemma interp_ccd_raises band j self :
  exists e, interp_ccd band j self = (Raise e, self).
Proof.
  unfold interp_ccd.
  do 5 (apply bind_pure_raises; [keeps_auto | intros ?]).
  eexists. reflexivity.
Qed.


Lemma memoize_keeps_tables : keeps tables memoize_std_ifunc.
Proof. keeps_auto. Qed.

Lemma get_transmission_band_check band expnum ccdnum self t n cache :
  _atm_data self = Val t ->
  In expnum (AtmTable.expnum t) ->
  nccd self = Val n ->
  (1 <= ccdnum <= Z.of_nat n)%Z ->
  _band_ccd_interp self = Val cache ->
  cache !! band = None ->
  get_transmission band expnum ccdnum None self
  = (Raise (ValueError (BandNotInTable band)), self).
Proof.
  intros Hatm Hin Hn Hrange Hc Hband.
  unfold get_transmission, bind, ret, getattr, need.
  rewrite Hatm. unfold ret, Np.where_eq.
  pose proof (where_eq_from_cons 0 _ _ Hin) as Hu.
  destruct (Np.where_eq_from 0 (AtmTable.expnum t) expnum) as [| i u];
    [contradiction |].
  simpl. unfold ccd_index_out_of_range, bind, getattr, need, ret, raise.
  destruct (Z.ltb_spec (ccdnum - 1) 0) as [Hlt | _]; [lia |].
  rewrite Hn.
  destruct (Z.leb_spec (Z.of_nat n) (ccdnum - 1)) as [Hle | _]; [lia |].
  rewrite Hc, Hband. reflexivity.
Qed.

(** ** The shape of what [get_transmission] returns *)

Lemma where_eq_from_length i column key :
  length (Np.where_eq_from i column key) = count_occ Z.eq_dec column key.
Proof.
  revert i. induction column as [| v rest IH]; intros i; simpl.
  - reflexivity.
  - destruct (Z.eqb_spec v key) as [-> | Hne].
    + destruct (Z.eq_dec key key) as [_ | Hc]; [| contradiction].
      simpl. rewrite IH. reflexivity.
    + destruct (Z.eq_dec v key) as [Hc | _]; [contradiction |].
      apply IH.
Qed.

Lemma take_rows_length rows u y :
  Np.take_rows rows u = Return y -> length y = length u.
Proof.
  revert y. induction u as [| i u IH]; intros y; simpl.
  - intros [= <-]. reflexivity.
  - destruct (nth_error rows i) as [r |]; [| discriminate].
    destruct (Np.take_rows rows u) as [rs | e]; [| discriminate].
    intros [= <-]. simpl. rewrite (IH rs eq_refl). reflexivity.
Qed.

Lemma new_rows_length x y fs :
  Interp.new_rows x y = Return fs -> length fs = length y.
Proof.
  revert fs. induction y as [| r y IH]; intros fs; simpl.
  - intros [= <-]. reflexivity.
  - destruct (Interp.new x r) as [f | e]; [| discriminate].
    destruct (Interp.new_rows x y) as [fs' | e]; [| discriminate].
    intros [= <-]. simpl. rewrite (IH fs' eq_refl). reflexivity.
Qed.

Lemma call_rows_length fs w v :
  Interp.call_rows fs w = Return v -> length v = length fs.
Proof.
  revert v. induction fs as [| f fs IH]; intros v; simpl.
  - intros [= <-]. reflexivity.
  - destruct (Interp.call f w) as [r | e]; [| discriminate].
    destruct (Interp.call_rows fs w) as [v' | e]; [| discriminate].
    intros [= <-]. simpl. rewrite (IH v' eq_refl). reflexivity.
Qed.

Lemma multiply_rows_length m b r :
  Np.multiply_rows m b = Return r -> length r = length m.
Proof.
  revert r. induction m as [| a m IH]; intros r; simpl.
  - intros [= <-]. reflexivity.
  - destruct (Np.multiply a b) as [p | e]; [| discriminate].
    destruct (Np.multiply_rows m b) as [ps | e]; [| discriminate].
    intros [= <-]. simpl. rewrite (IH ps eq_refl). reflexivity.
Qed.

Lemma get_transmission_rows band expnum ccdnum self self' t r :
  _atm_data self = Val t ->
  get_transmission band expnum ccdnum None self = (Return r, self') ->
  length r = count_occ Z.eq_dec (AtmTable.expnum t) expnum.
Proof.
  intros Hatm.
  destruct self as [a1 a2 a3 a4 a5 a6 a7 a8 a9 a10]. simpl in Hatm. subst a4.
  unfold get_transmission, ccd_index_out_of_range, wavelengths_array,
    getitem, column, Np.where_eq.
  py_step.
  rewrite <- (where_eq_from_length 0).
  set (u := Np.where_eq_from 0 (AtmTable.expnum t) expnum).
  intros H.
  repeat match type of H with
         | context [match ?x with _ => _ end] =>
             match x with
             | Np.take_rows _ _ => destruct x as [y |] eqn:Ey
             | Interp.new_rows _ _ => destruct x as [fs |] eqn:Efs
             | Interp.call_rows _ _ => destruct x as [v |] eqn:Ev
             | _ => destruct x eqn:?
             end; try discriminate H
         end.
  injection H as H _.
  apply multiply_rows_length in H. rewrite length_map in H.
  apply call_rows_length in Ev. apply new_rows_length in Efs.
  apply take_rows_length in Ey. congruence.
Qed.

(** ** [interp1d(x, y)] *)

Lemma interp_new_error x y e :
  Interp.new x y = Raise e ->
  e = ValueError InterpUnequalLength \/ e = ValueError InterpNoEntries.
Proof.
  unfold Interp.new.
  destruct (negb (Nat.eqb (length x) (length y))); [intros [= <-]; auto |].
  destruct (Nat.eqb (length x) 0); [intros [= <-]; auto | discriminate].
Qed.

Lemma interp_new_ok x y :
  length x = length y -> x <> [] ->
  Interp.new x y = Return (Interp.Build x y).
Proof.
  intros Hlen Hne. unfold Interp.new.
  rewrite Hlen, Nat.eqb_refl. simpl.
  destruct y as [| y0 y]; [destruct x; [contradiction | discriminate] |].
  reflexivity.
Qed.

Lemma interp_new_value x y f :
  Interp.new x y = Return f -> f = Interp.Build x y.
Proof.
  unfold Interp.new.
  destruct (negb (Nat.eqb (length x) (length y))); [discriminate |].
  destruct (Nat.eqb (length x) 0); [discriminate |].
  intros [= <-]. reflexivity.
Qed.

(** ** The sign of what the queries multiply *)








Lemma for_each_interp_ccd_state band l self :
  snd (for_each l (interp_ccd band) self) = self.
Proof.
  destruct l as [| j l]; [reflexivity |].
  rewrite for_each_cons. destruct (interp_ccd_raises band j self) as [e ->].
  reflexivity.
Qed.

(** ** What the rebuild stores

    One iteration of the loop over the bands leaves the object as it
    was, or with the entry of line 47 added, or with the entries of
    lines 47 and 48 added: line 52 raises before it stores. *)

Lemma interp_band_state band self :
  snd (interp_band band self) = self \/
  exists v tput,
    _band_tput_interp self = Val tput /\
    (snd (interp_band band self)
     = snd (set__band_tput_interp
              (Val (<[band := Np.clip v 0 Np.huge]> tput)) self) \/
     exists size n ccd,
       _band_ccd_interp self = Val ccd /\
       snd (interp_band band self)
       = snd (set__band_ccd_interp
                (Val (<[band := repeat (repeat 0%Q size) n]> ccd))
                (snd (set__band_tput_interp
                        (Val (<[band := Np.clip v 0 Np.huge]> tput)) self)))).
Proof.
  destruct self as [a1 a2 a3 a4 a5 a6 a7 a8 a9 a10].
  unfold interp_band, ccd_data_of, columns, getitem, wavelengths_array,
    wavelengths_size.
  py_step.
  repeat (match goal with
          | |- context [match ?x with _ => _ end] =>
              lazymatch x with
              | context [match _ with _ => _ end] => fail
              | for_each _ _ _ => fail
              | _ => destruct x eqn:?
              end
          end; py_step);
    try (left; reflexivity);
    right; eexists _, _; (split; [reflexivity |]);
    try (left; reflexivity);
    right; eexists _, _, _; (split; [reflexivity |]);
    apply for_each_interp_ccd_state.
Qed.

Lemma keeps_id_apply {A} (m : method A) self :
  keeps (fun s => s) m -> snd (m self) = self.
Proof. intros H. exact (H self). Qed.

Lemma std_product_pure band : keeps (fun s => s) (std_product band).
Proof. keeps_auto. Qed.

Lemma memoize_keeps_grid_and_caches : keeps grid_and_caches memoize_std_ifunc.
Proof. keeps_auto. Qed.

Lemma get_transmission_state band expnum ccdnum w self :
  snd (get_transmission band expnum ccdnum w self)
  = match w with
    | Some g => snd (set_wavelengths g self)
    | None => self
    end.
Proof.
  unfold get_transmission. destruct w as [g |].
  - unfold bind at 1.
    destruct (set_wavelengths g self) as [[[] | e] self1]; [| reflexivity].
    simpl. apply keeps_id_apply. keeps_auto.
  - apply keeps_id_apply. keeps_auto.
Qed.

Lemma get_std_transmission_state band w self :
  snd (get_std_transmission band w self)
  = match w with
    | Some g =>
        match fst (memoize_std_ifunc self) with
        | Return _ => snd (set_wavelengths g (snd (memoize_std_ifunc self)))
        | Raise _ => snd (memoize_std_ifunc self)
        end
    | None => snd (memoize_std_ifunc self)
    end.
Proof.
  unfold get_std_transmission. unfold bind at 1.
  destruct (memoize_std_ifunc self) as [[[] | e] self1]; simpl.
  - destruct w as [g |].
    + unfold bind at 1.
      destruct (set_wavelengths g self1) as [[[] | e] self2]; [| reflexivity].
      simpl. apply keeps_id_apply. apply std_product_pure.
    + apply (keeps_id_apply (do_ ret tt ; std_product band)). keeps_auto.
  - destruct w; reflexivity.
Qed.

Lemma rebuild_eq g self : rebuild g self = interp_bands (regridded g self).
Proof. destruct self. reflexivity. Qed.

Lemma set_wavelengths_state g self :
  snd (set_wavelengths g self) = self \/
  snd (set_wavelengths g self) = snd (rebuild g self).
Proof.
  unfold set_wavelengths, bind.
  destruct (grid_matches_cases g self) as [-> | [e ->]].
  - right. reflexivity.
  - left. reflexivity.
Qed.


(** An invariant of the body is one of the loop. *)
Lemma for_each_invariant {A} (P : FgcmDesTransmission -> Prop) (Q : A -> Prop)
    (body : A -> method unit) l :
  (forall a self, Q a -> P self -> P (snd (body a self))) ->
  Forall Q l ->
  forall self, P self -> P (snd (for_each l body self)).
Proof.
  intros Hbody Hl. induction Hl as [| a l Ha _ IH]; intros self HP.
  - exact HP.
  - rewrite for_each_cons. specialize (Hbody a self Ha HP).
    destruct (body a self) as [[[] | e] s]; simpl in Hbody.
    + apply IH. exact Hbody.
    + exact Hbody.
Qed.

(** *** No cache entry is negative *)











(** *** The products of lines 104 and 135 *)








(** *** Every cached band is a loaded band *)

Lemma caches_within_bands_ext self self' :
  bands self' = bands self ->
  _band_tput_interp self' = _band_tput_interp self ->
  _band_ccd_interp self' = _band_ccd_interp self ->
  caches_within_bands self -> caches_within_bands self'.
Proof.
  unfold caches_within_bands, cached_band. intros -> -> ->.
  exact (fun H => H).
Qed.

Lemma caches_within_bands_store_tput band bs v tput self :
  bands self = Val bs -> In band bs ->
  _band_tput_interp self = Val tput ->
  caches_within_bands self ->
  caches_within_bands
    (snd (set__band_tput_interp (Val (<[band := v]> tput)) self)).
Proof.
  intros Hb Hin Ht H b [(d & Hd & Hl) | (d & Hd & Hl)]; simpl in *.
  - injection Hd as <-. destruct (decide (band = b)) as [<- | Hne].
    + exists bs. split; assumption.
    + rewrite lookup_insert_ne in Hl by exact Hne.
      apply H. left. exists tput. split; assumption.
  - apply H. right. exists d. split; assumption.
Qed.

Lemma caches_within_bands_store_ccd band bs m ccd self :
  bands self = Val bs -> In band bs ->
  _band_ccd_interp self = Val ccd ->
  caches_within_bands self ->
  caches_within_bands
    (snd (set__band_ccd_interp (Val (<[band := m]> ccd)) self)).
Proof.
  intros Hb Hin Hc H b [(d & Hd & Hl) | (d & Hd & Hl)]; simpl in *.
  - apply H. left. exists d. split; assumption.
  - injection Hd as <-. destruct (decide (band = b)) as [<- | Hne].
    + exists bs. split; assumption.
    + rewrite lookup_insert_ne in Hl by exact Hne.
      apply H. right. exists ccd. split; assumption.
Qed.

Lemma interp_band_caches_within_bands bs band self :
  In band bs ->
  bands self = Val bs /\ caches_within_bands self ->
  bands (snd (interp_band band self)) = Val bs /\
  caches_within_bands (snd (interp_band band self)).
Proof.
  intros Hin [Hb H].
  destruct (interp_band_state band self)
    as [-> | (v & tput & Ht & [-> | (size & n & ccd & Hc & ->)])].
  - split; assumption.
  - split; [exact Hb |].
    apply (caches_within_bands_store_tput band bs); assumption.
  - split; [exact Hb |].
    apply (caches_within_bands_store_ccd band bs); try assumption.
    apply (caches_within_bands_store_tput band bs); assumption.
Qed.

Lemma interp_bands_caches_within_bands self :
  caches_within_bands self -> caches_within_bands (snd (interp_bands self)).
Proof.
  intros H. unfold interp_bands, bind, getattr, need.
  destruct (bands self) as [| | bs] eqn:Hb; try exact H.
  apply (for_each_invariant
           (fun s => bands s = Val bs /\ caches_within_bands s)
           (fun b => In b bs) interp_band bs).
  - intros band s. apply interp_band_caches_within_bands.
  - apply List.Forall_forall. intros b Hin. exact Hin.
  - split; assumption.
Qed.

Lemma rebuild_caches_within_bands g self :
  caches_within_bands (snd (rebuild g self)).
Proof.
  rewrite rebuild_eq. apply interp_bands_caches_within_bands.
  intros b [(d & Hd & Hl) | (d & Hd & Hl)]; simpl in Hd;
    injection Hd as <-; rewrite lookup_empty in Hl;
    destruct Hl as [x Hx]; discriminate Hx.
Qed.

Lemma set_wavelengths_caches_within_bands g self :
  caches_within_bands self ->
  caches_within_bands (snd (set_wavelengths g self)).
Proof.
  intros H. destruct (set_wavelengths_state g self) as [-> | ->].
  - exact H.
  - apply rebuild_caches_within_bands.
Qed.

Lemma memoize_caches_within_bands self :
  caches_within_bands self ->
  caches_within_bands (snd (memoize_std_ifunc self)).
Proof.
  pose proof (memoize_keeps_grid_and_caches self) as Hk.
  pose proof (memoize_keeps_tables self) as Ht.
  unfold grid_and_caches in Hk. unfold tables in Ht.
  injection Hk as _ Hk1 Hk2. injection Ht as _ Hb _ _ _ _.
  apply caches_within_bands_ext; assumption.
Qed.

Lemma after_caches_within_bands c self :
  caches_within_bands self -> caches_within_bands (after c self).
Proof.
  intros H. destruct c as [g | | band expnum ccdnum w | band w]; simpl.
  - apply set_wavelengths_caches_within_bands, H.
  - rewrite (get_wavelengths_keeps (fun s => s)). exact H.
  - rewrite get_transmission_state. destruct w as [g |]; [| exact H].
    apply set_wavelengths_caches_within_bands, H.
  - rewrite get_std_transmission_state.
    pose proof (memoize_caches_within_bands self H) as Hm.
    destruct w as [g |]; [| exact Hm].
    destruct (fst (memoize_std_ifunc self)); [| exact Hm].
    apply set_wavelengths_caches_within_bands, Hm.
Qed.

Lemma run_caches_within_bands calls : forall self,
  caches_within_bands self -> caches_within_bands (run calls self).
Proof.
  unfold run. induction calls as [| c calls IH]; intros self H; simpl.
  - exact H.
  - apply IH, after_caches_within_bands, H.
Qed.


(** ** The constructor and the grid *)







(** C2. The code raises where the claim asks for a silent return. On
    every object whose [_wavelengths] is bound, after a call
    [set_wavelengths(g)], returned or raised, a second call with the
    same [g] raises a TypeError and leaves the object as it is: the
    guard of the early return calls [np.allclose] with one argument
    (line 35). *)
Theorem second_set_wavelengths_raises g self :
  _wavelengths self <> Unset ->
  set_wavelengths g (snd (set_wavelengths g self))
  = (Raise (TypeError AllcloseMissingB), snd (set_wavelengths g self)).
Proof.
  intros Hw.
  destruct (set_wavelengths_stores_length g self Hw) as (cached & Hc & Hlen).
  exact (set_wavelengths_same_length g cached _ Hc Hlen).
Qed.

Lemma second_set_wavelengths_raises_witness :
  _wavelengths Demo.fresh_no_band <> Unset /\
  fst (set_wavelengths Demo.grid Demo.fresh_no_band) = Return tt /\
  set_wavelengths Demo.grid (snd (set_wavelengths Demo.grid Demo.fresh_no_band))
  = (Raise (TypeError AllcloseMissingB),
     snd (set_wavelengths Demo.grid Demo.fresh_no_band)).
Proof.
  assert (_wavelengths Demo.fresh_no_band <> Unset) as Hw by discriminate.
  split; [exact Hw |]. split; [reflexivity |].
  exact (second_set_wavelengths_raises Demo.grid Demo.fresh_no_band Hw).
Defined.

Example second_call_after_a_first_that_returned :
  fst (set_wavelengths Demo.grid Demo.fresh_no_band) = Return tt /\
  fst (set_wavelengths Demo.grid
         (snd (set_wavelengths Demo.grid Demo.fresh_no_band)))
  = Raise (TypeError AllcloseMissingB).
Proof. split; reflexivity. Qed.

Example second_call_on_an_object_with_tables :
  fst (set_wavelengths Demo.grid Loaded.uncached)
  = Raise (TypeError CallTakesOneArgument) /\
  fst (set_wavelengths Demo.grid
         (snd (set_wavelengths Demo.grid Loaded.uncached)))
  = Raise (TypeError AllcloseMissingB).
Proof. split; vm_compute; reflexivity. Qed.

(** C3. For every non-empty grid [g] and every object: when
    [set_wavelengths(g)] returns, [get_wavelengths()] returns [g]. The
    grid need not be non-empty for this. *)
Theorem get_wavelengths_after_set_wavelengths g self self' :
  g <> [] ->
  set_wavelengths g self = (Return tt, self') ->
  get_wavelengths self' = (Return (Some g), self').
Proof.
  intros _ Hset. unfold get_wavelengths, getattr.
  rewrite (set_wavelengths_returns g self self' Hset). reflexivity.
Qed.

Lemma get_wavelengths_after_set_wavelengths_witness :
  Demo.grid <> [] /\
  set_wavelengths Demo.grid Demo.fresh_no_band
  = (Return tt, regridded Demo.grid Demo.fresh_no_band) /\
  get_wavelengths (regridded Demo.grid Demo.fresh_no_band)
  = (Return (Some Demo.grid), regridded Demo.grid Demo.fresh_no_band).
Proof.
  assert (Demo.grid <> []) as Hne by discriminate.
  assert (set_wavelengths Demo.grid Demo.fresh_no_band
          = (Return tt, regridded Demo.grid Demo.fresh_no_band)) as Hset
    by reflexivity.
  split; [exact Hne |]. split; [exact Hset |].
  exact (get_wavelengths_after_set_wavelengths
           Demo.grid Demo.fresh_no_band _ Hne Hset).
Defined.

(** ** The argument checks of [get_transmission] and
    [get_std_transmission] *)

(** C4. On every object whose [_atm_data] holds a table, for every band
    and every detector number, valid or not: [get_transmission] with an
    exposure number that is not in the [expnum] column raises the
    ValueError "Exposure not found in atm table" (line 91) and leaves
    the object unchanged. *)
Theorem unknown_exposure_raises_ValueError band expnum ccdnum self t :
  _atm_data self = Val t ->
  ~ In expnum (AtmTable.expnum t) ->
  get_transmission band expnum ccdnum None self
  = (Raise (ValueError (ExposureNotFound expnum)), self).
Proof. exact (exposure_check band expnum ccdnum self t). Qed.

Lemma unknown_exposure_raises_ValueError_witness :
  _atm_data Loaded.uncached = Val Loaded.atm_data /\
  ~ In 1000000%Z (AtmTable.expnum Loaded.atm_data) /\
  get_transmission "g" 1000000 1 None Loaded.uncached
  = (Raise (ValueError (ExposureNotFound 1000000)), Loaded.uncached).
Proof.
  assert (_atm_data Loaded.uncached = Val Loaded.atm_data) as Hatm
    by reflexivity.
  assert (~ In 1000000%Z (AtmTable.expnum Loaded.atm_data)) as Hnot.
  { simpl. intros [H | [H | [H | []]]]; discriminate H. }
  split; [exact Hatm |]. split; [exact Hnot |].
  exact (unknown_exposure_raises_ValueError
           "g" 1000000%Z 1%Z Loaded.uncached Loaded.atm_data Hatm Hnot).
Defined.

(** C5. On every object whose [_atm_data] holds a table and whose [nccd]
    is a number, for every band: [get_transmission] with an exposure
    number of the table and a detector number below 1 or above [nccd]
    raises the ValueError "ccdnum out of range" (line 95) and leaves the
    object unchanged. Detector numbers count from 1: the index tested
    is [ccdnum - 1]. *)
Theorem ccdnum_out_of_range_raises_ValueError band expnum ccdnum self t n :
  _atm_data self = Val t ->
  In expnum (AtmTable.expnum t) ->
  nccd self = Val n ->
  (ccdnum < 1 \/ Z.of_nat n < ccdnum)%Z ->
  get_transmission band expnum ccdnum None self
  = (Raise (ValueError (CcdnumOutOfRange ccdnum)), self).
Proof. exact (ccdnum_check band expnum ccdnum self t n). Qed.

Lemma ccdnum_out_of_range_raises_ValueError_witness :
  _atm_data Loaded.uncached = Val Loaded.atm_data /\
  In 226650%Z (AtmTable.expnum Loaded.atm_data) /\
  nccd Loaded.uncached = Val 2%nat /\
  (3 < 1 \/ Z.of_nat 2 < 3)%Z /\
  get_transmission "g" 226650 3 None Loaded.uncached
  = (Raise (ValueError (CcdnumOutOfRange 3)), Loaded.uncached) /\
  get_transmission "g" 226650 0 None Loaded.uncached
  = (Raise (ValueError (CcdnumOutOfRange 0)), Loaded.uncached).
Proof.
  assert (_atm_data Loaded.uncached = Val Loaded.atm_data) as Hatm
    by reflexivity.
  assert (In 226650%Z (AtmTable.expnum Loaded.atm_data)) as Hin
    by (simpl; left; reflexivity).
  assert (nccd Loaded.uncached = Val 2%nat) as Hn by reflexivity.
  assert (3 < 1 \/ Z.of_nat 2 < 3)%Z as Hhigh by (right; reflexivity).
  assert (0 < 1 \/ Z.of_nat 2 < 0)%Z as Hlow by (left; reflexivity).
  split; [exact Hatm |]. split; [exact Hin |]. split; [exact Hn |].
  split; [exact Hhigh |]. split.
  - exact (ccdnum_out_of_range_raises_ValueError
             "g" 226650%Z 3%Z Loaded.uncached Loaded.atm_data 2%nat
             Hatm Hin Hn Hhigh).
  - exact (ccdnum_out_of_range_raises_ValueError
             "g" 226650%Z 0%Z Loaded.uncached Loaded.atm_data 2%nat
             Hatm Hin Hn Hlow).
Defined.




(** ** What the queries return *)



(** C8. What [get_transmission] returns is not a sequence as long as
    the grid: it is a sequence of rows, one per table row of the
    exposure. With one such row and a grid that has not exactly one
    sample, a call that returns gives a result of length 1, which is
    not the length of the grid. [throughput[u, :]] (line 101) indexes
    with the array [u], which keeps the row axis. *)
Theorem get_transmission_returns_rows_not_samples
    band expnum ccdnum self self' t grid r :
  _atm_data self = Val t ->
  count_occ Z.eq_dec (AtmTable.expnum t) expnum = 1%nat ->
  _wavelengths self' = Val grid ->
  length grid <> 1%nat ->
  get_transmission band expnum ccdnum None self = (Return r, self') ->
  length r = 1%nat /\ length r <> length grid.
Proof.
  intros Hatm Hone Hgrid Hlen Hret.
  pose proof (get_transmission_rows band expnum ccdnum self self' t r
                Hatm Hret) as Hrows.
  rewrite Hone in Hrows. split; [exact Hrows |].
  rewrite Hrows. intros Heq. apply Hlen. symmetry. exact Heq.
Qed.

Lemma get_transmission_returns_rows_not_samples_witness :
  _atm_data Loaded.cached = Val Loaded.atm_data /\
  count_occ Z.eq_dec (AtmTable.expnum Loaded.atm_data) 226651%Z = 1%nat /\
  _wavelengths Loaded.cached = Val Demo.grid /\
  length Demo.grid <> 1%nat /\
  get_transmission "g" 226651 1 None Loaded.cached
  = (Return [[0 # 40000; 224000 # 400000; 0 # 400000]%Q], Loaded.cached) /\
  length [[0 # 40000; 224000 # 400000; 0 # 400000]%Q] = 1%nat /\
  length [[0 # 40000; 224000 # 400000; 0 # 400000]%Q] <> length Demo.grid.
Proof.
  assert (_atm_data Loaded.cached = Val Loaded.atm_data) as Hatm
    by reflexivity.
  assert (count_occ Z.eq_dec (AtmTable.expnum Loaded.atm_data) 226651%Z
          = 1%nat) as Hone by reflexivity.
  assert (_wavelengths Loaded.cached = Val Demo.grid) as Hgrid
    by reflexivity.
  assert (length Demo.grid <> 1%nat) as Hlen by discriminate.
  assert (get_transmission "g" 226651 1 None Loaded.cached
          = (Return [[0 # 40000; 224000 # 400000; 0 # 400000]%Q],
             Loaded.cached)) as Hret by (vm_compute; reflexivity).
  split; [exact Hatm |]. split; [exact Hone |]. split; [exact Hgrid |].
  split; [exact Hlen |]. split; [exact Hret |].
  exact (get_transmission_returns_rows_not_samples
           "g" 226651%Z 1%Z Loaded.cached Loaded.cached Loaded.atm_data
           Demo.grid _ Hatm Hone Hgrid Hlen Hret).
Defined.

(** C9. The scenario stops in the constructor. On every throughput file
    and every atmosphere table, [FgcmDesTransmission(ccd_file, atm_file)]
    raises: [_read_ccd_file] raises at line 155 on the primary HDU of
    the file, whose data is [None] or an image, and [_read_atm_file],
    which the constructor does not reach, raises IndexError on every
    table, at line 171 at the latest. No object is returned on which
    [get_transmission] could be called. *)
Theorem constructor_always_raises ccd_file atm_file :
  construct ccd_file atm_file = Raise (primary_error ccd_file) /\
  (forall self,
     fst (_read_ccd_file ccd_file self) = Raise (primary_error ccd_file)) /\
  (forall self, fst (_read_atm_file atm_file self) = Raise IndexError).
Proof.
  split; [exact (construct_raises ccd_file atm_file) |]. split; intros self.
  - rewrite read_ccd_file_raises. reflexivity.
  - rewrite read_atm_file_raises. reflexivity.
Qed.

Example scenario_stops_in_the_constructor :
  construct Demo.ccd_file Demo.atm_file
  = Raise (TypeError NoneNotSubscriptable) /\
  fst (_read_atm_file Demo.atm_file blank) = Raise IndexError.
Proof. split; reflexivity. Qed.

(** C10. On every object and for all arguments, [get_transmission],
    [get_std_transmission] and [get_wavelengths] leave the attributes
    that hold the loaded tables as they were ([_ccd_data], [bands],
    [nccd], [_atm_data], [_atm_wavelengths], [_atm_std]), whether the
    call returns or raises. What a call may change is the rest:
    [_wavelengths], the two caches and [_std_ifunc]. *)
Theorem queries_keep_the_tables self band expnum ccdnum w :
  tables (snd (get_transmission band expnum ccdnum w self)) = tables self /\
  tables (snd (get_std_transmission band w self)) = tables self /\
  tables (snd (get_wavelengths self)) = tables self.
Proof.
  split; [| split].
  - apply get_transmission_keeps_tables.
  - apply get_std_transmission_keeps_tables.
  - apply get_wavelengths_keeps.
Qed.

(** ** Further properties: the reader helpers and the constructor *)

Lemma split_0_append band suffix :
  has_underscore band = false ->
  Fits.split_0 (String.append band (String "_"%char suffix)) = band.
Proof.
  induction band as [| c band IH]; simpl.
  - reflexivity.
  - destruct (Ascii.eqb c "_"%char); [discriminate |].
    intros H. rewrite IH by exact H. reflexivity.
Qed.

Lemma split_0_no_underscore s : has_underscore (Fits.split_0 s) = false.
Proof.
  induction s as [| c s IH]; simpl; [reflexivity |].
  destruct (Ascii.eqb c "_"%char) eqn:E; simpl; [reflexivity |].
  rewrite E. exact IH.
Qed.

(** X1. The band name taken from an extension name (line 150) is the text
    before the first underscore: for a band without underscore, the
    extension named band, underscore, any suffix gives back the band, and
    so does the bare band; a band name never holds an underscore. *)
Theorem split_0_recovers_the_band band suffix :
  has_underscore band = false ->
  Fits.split_0 (String.append band (String "_"%char suffix)) = band /\
  Fits.split_0 band = band /\
  forall extname, has_underscore (Fits.split_0 extname) = false.
Proof.
  intros H. split; [exact (split_0_append band suffix H) |].
  split; [| exact split_0_no_underscore].
  induction band as [| c band IH]; simpl in *; [reflexivity |].
  destruct (Ascii.eqb c "_"%char); [discriminate |].
  rewrite IH by exact H. reflexivity.
Qed.

Lemma split_0_recovers_the_band_witness :
  has_underscore "Y" = false /\
  Fits.split_0 (String.append "Y" (String "_"%char "throughput_y6a1")) = "Y" /\
  Fits.split_0 "Y" = "Y" /\
  forall extname, has_underscore (Fits.split_0 extname) = false.
Proof.
  assert (has_underscore "Y" = false) as H by reflexivity.
  split; [exact H |].
  exact (split_0_recovers_the_band "Y" "throughput_y6a1" H).
Defined.


(** X2. [_read_ccd_file] raises on every file, in the first iteration of
    its loop (line 155): the primary HDU comes first, its data is [None]
    or an image, and neither has a column [throughput_ccd]. What it
    leaves behind is the primary HDU stored under the first part of its
    name, that name as the only band, and [nccd] at [None]; no table
    extension is read, and the other attributes are as before. *)
Theorem read_ccd_file_stops_at_the_primary_hdu ccd_file self :
  fst (_read_ccd_file ccd_file self) = Raise (primary_error ccd_file) /\
  _ccd_data (snd (_read_ccd_file ccd_file self))
  = Val (<[Fits.split_0 (Fits.primary_extname ccd_file) :=
             Fits.read (Fits.primary_hdu ccd_file)]> ∅) /\
  bands (snd (_read_ccd_file ccd_file self))
  = Val [Fits.split_0 (Fits.primary_extname ccd_file)] /\
  nccd (snd (_read_ccd_file ccd_file self)) = PyNone /\
  _atm_data (snd (_read_ccd_file ccd_file self)) = _atm_data self /\
  grid_and_caches (snd (_read_ccd_file ccd_file self)) = grid_and_caches self.
Proof.
  rewrite read_ccd_file_raises. simpl.
  repeat split; reflexivity.
Qed.

(** X3. [_read_atm_file] raises IndexError on every table and never
    binds [_atm_data]: a table without row 0 or row 1 stops at line 167
    or 169, and on any other table line 171 puts two indices on the
    one-dimensional record array. With two rows or more,
    [_atm_wavelengths] and [_atm_std] are bound to rows 0 and 1 of the
    [throughput] column when the exception is raised. *)
Theorem read_atm_file_raises_IndexError atm_file self :
  fst (_read_atm_file atm_file self) = Raise IndexError /\
  _atm_data (snd (_read_atm_file atm_file self)) = _atm_data self /\
  (forall r0 r1 rest,
     AtmTable.throughput atm_file = r0 :: r1 :: rest ->
     _atm_wavelengths (snd (_read_atm_file atm_file self)) = Val r0 /\
     _atm_std (snd (_read_atm_file atm_file self)) = Val r1).
Proof.
  rewrite read_atm_file_raises. simpl.
  split; [reflexivity |]. split.
  - destruct (AtmTable.throughput atm_file) as [| r0 [| r1 rest]];
      reflexivity.
  - intros r0 r1 rest ->. split; reflexivity.
Qed.

Lemma read_atm_file_raises_IndexError_witness :
  fst (_read_atm_file Demo.atm_file blank) = Raise IndexError /\
  _atm_data (snd (_read_atm_file Demo.atm_file blank)) = Unset /\
  _atm_wavelengths (snd (_read_atm_file Demo.atm_file blank)) = Val Demo.grid /\
  _atm_std (snd (_read_atm_file Demo.atm_file blank)) = Val [0; 9 # 10; 0]%Q.
Proof.
  pose proof (read_atm_file_raises_IndexError Demo.atm_file blank)
    as (Hraise & Hdata & Hrows).
  split; [exact Hraise |]. split; [exact Hdata |].
  exact (Hrows Demo.grid [0; 9 # 10; 0]%Q _ eq_refl).
Defined.

(** ** Further properties: what the calls change *)

(** X4. The only effect of [get_transmission] on the object is that of
    the [set_wavelengths] it starts with: with a [wavelengths] argument
    the object is left as [set_wavelengths] leaves it, returned or
    raised, and an exception of [set_wavelengths] is the exception of
    the call; without the argument the object is unchanged. Lines 89-104
    assign nothing. *)
Theorem get_transmission_changes_what_set_wavelengths_changes
    band expnum ccdnum self :
  (forall g,
     snd (get_transmission band expnum ccdnum (Some g) self)
     = snd (set_wavelengths g self)) /\
  (forall g e,
     fst (set_wavelengths g self) = Raise e ->
     fst (get_transmission band expnum ccdnum (Some g) self) = Raise e) /\
  snd (get_transmission band expnum ccdnum None self) = self.
Proof.
  split; [| split].
  - intros g. unfold get_transmission. unfold bind at 1.
    destruct (set_wavelengths g self) as [[[] | e] self1]; [| reflexivity].
    simpl. apply keeps_id_apply. keeps_auto.
  - intros g e. unfold get_transmission. unfold bind at 1.
    destruct (set_wavelengths g self) as [[[] | e'] self1]; simpl.
    + intros H. discriminate H.
    + intros [= ->]. reflexivity.
  - unfold get_transmission. apply keeps_id_apply. keeps_auto.
Qed.

(** X5. [set_wavelengths] assigns the grid and the two caches only: on
    every object and for every grid, the loaded tables and the standard
    interpolant are as before, whether the call returns or raises. *)
Theorem set_wavelengths_keeps_tables_and_std_ifunc g self :
  tables (snd (set_wavelengths g self)) = tables self /\
  _std_ifunc (snd (set_wavelengths g self)) = _std_ifunc self.
Proof.
  split.
  - apply set_wavelengths_keeps_tables.
  - apply set_wavelengths_keeps_std_ifunc.
Qed.

(** X6. [get_std_transmission] without a [wavelengths] argument leaves
    the grid and both caches as they were, on every object and whether
    it returns or raises: the one attribute it may assign is
    [_std_ifunc]. *)
Theorem get_std_transmission_keeps_grid_and_caches band self :
  grid_and_caches (snd (get_std_transmission band None self))
  = grid_and_caches self /\
  tables (snd (get_std_transmission band None self)) = tables self.
Proof.
  split; [| apply get_std_transmission_keeps_tables].
  unfold get_std_transmission.
  apply (keeps_bind grid_and_caches); [apply memoize_keeps_grid_and_caches |].
  intros _. apply keeps_bind; [apply keeps_ret |].
  intros _. intros s. rewrite (keeps_id_apply _ s (std_product_pure band)).
  reflexivity.
Qed.

Lemma memoize_keeps_bound f self :
  _std_ifunc self = Val f ->
  memoize_std_ifunc self = (Return tt, self).
Proof.
  intros H. unfold memoize_std_ifunc, bind, getattr. rewrite H. reflexivity.
Qed.

Lemma get_std_transmission_keeps_bound band w f self :
  _std_ifunc self = Val f ->
  _std_ifunc (snd (get_std_transmission band w self)) = Val f.
Proof.
  intros H. unfold get_std_transmission. unfold bind at 1.
  rewrite (memoize_keeps_bound f self H).
  rewrite <- H. clear H. revert self.
  change (keeps _std_ifunc
            (do_ match w with
                 | Some g => set_wavelengths g
                 | None => ret tt
                 end ;
             std_product band)).
  keeps_auto.
Qed.

(** X7. Once the standard interpolant is built it is never rebuilt or
    dropped: whatever public call follows, a change of grid included,
    [_std_ifunc] is bound to the same interpolant after it. *)
Theorem std_ifunc_is_built_once c f self :
  _std_ifunc self = Val f ->
  _std_ifunc (after c self) = Val f.
Proof.
  intros H. destruct c; simpl.
  - rewrite set_wavelengths_keeps_std_ifunc. exact H.
  - rewrite get_wavelengths_keeps. exact H.
  - rewrite get_transmission_keeps_std_ifunc. exact H.
  - apply get_std_transmission_keeps_bound. exact H.
Qed.

Lemma std_ifunc_is_built_once_witness :
  let self := after (Call_get_std_transmission "g" None) Demo.fresh in
  let f := Interp.Build Demo.grid [0; 9 # 10; 0]%Q in
  _std_ifunc self = Val f /\
  _std_ifunc (after (Call_set_wavelengths [3000; 5000]%Q) self) = Val f.
Proof.
  assert (_std_ifunc (after (Call_get_std_transmission "g" None) Demo.fresh)
          = Val (Interp.Build Demo.grid [0; 9 # 10; 0]%Q)) as H by reflexivity.
  split; [exact H |].
  exact (std_ifunc_is_built_once (Call_set_wavelengths [3000; 5000]%Q) _ _ H).
Defined.

(** ** Further properties: the standard interpolant *)

Lemma std_rest_keeps_std_ifunc band (w : option (list Q)) :
  keeps _std_ifunc
    (do_ match w with
         | Some g => set_wavelengths g
         | None => ret tt
         end ;
     std_product band).
Proof. keeps_auto. Qed.

Lemma get_std_transmission_std_ifunc band w self :
  _std_ifunc (snd (get_std_transmission band w self))
  = _std_ifunc (snd (memoize_std_ifunc self)).
Proof.
  unfold get_std_transmission. unfold bind at 1.
  destruct (memoize_std_ifunc self) as [[[] | e] self1]; simpl;
    [| reflexivity].
  apply std_rest_keeps_std_ifunc.
Qed.

(** X8. On any object whose [_std_ifunc] is [None] and whose
    [_atm_wavelengths] and [_atm_std] are bound to two non-empty rows of
    equal length, a call of [get_std_transmission], whatever its
    arguments and whether it returns or raises, leaves [_std_ifunc]
    bound to the curve through those two rows. *)
Theorem get_std_transmission_builds_the_standard_curve band w self x y :
  _std_ifunc self = PyNone ->
  _atm_wavelengths self = Val x ->
  _atm_std self = Val y ->
  length x = length y ->
  x <> [] ->
  _std_ifunc (snd (get_std_transmission band w self))
  = Val (Interp.Build x y).
Proof.
  intros Hf Hx Hy Hlen Hne. rewrite get_std_transmission_std_ifunc.
  destruct self as [a1 a2 a3 a4 a5 a6 a7 a8 a9 a10]. simpl in *. subst.
  unfold memoize_std_ifunc. py_step.
  rewrite (interp_new_ok x y Hlen Hne). reflexivity.
Qed.

Lemma get_std_transmission_builds_the_standard_curve_witness :
  _std_ifunc Loaded.cached = PyNone /\
  _atm_wavelengths Loaded.cached = Val Demo.grid /\
  _atm_std Loaded.cached = Val [0; 9 # 10; 0]%Q /\
  length Demo.grid = length [0; 9 # 10; 0]%Q /\
  Demo.grid <> [] /\
  _std_ifunc (snd (get_std_transmission "k" None Loaded.cached))
  = Val (Interp.Build Demo.grid [0; 9 # 10; 0]%Q).
Proof.
  assert (_std_ifunc Loaded.cached = PyNone) as Hf by reflexivity.
  assert (_atm_wavelengths Loaded.cached = Val Demo.grid) as Hx
    by reflexivity.
  assert (_atm_std Loaded.cached = Val [0; 9 # 10; 0]%Q) as Hy
    by reflexivity.
  assert (length Demo.grid = length [0; 9 # 10; 0]%Q) as Hlen
    by reflexivity.
  assert (Demo.grid <> []) as Hne by discriminate.
  split; [exact Hf |]. split; [exact Hx |]. split; [exact Hy |].
  split; [exact Hlen |]. split; [exact Hne |].
  exact (get_std_transmission_builds_the_standard_curve
           "k" None Loaded.cached _ _ Hf Hx Hy Hlen Hne).
Defined.

(** ** Further properties: [set_wavelengths] on any object *)

Lemma keeps_pres {A B} (slot : FgcmDesTransmission -> B) (m : method A) v :
  keeps slot m -> forall s, slot s = v -> slot (snd (m s)) = v.
Proof. intros Hk s Hs. rewrite Hk. exact Hs. Qed.

Lemma bind_never_returns {A C} (P : FgcmDesTransmission -> Prop)
    (m : method A) (k : A -> method C) self :
  P self ->
  (forall s, P s -> P (snd (m s))) ->
  (forall a s, P s -> ~ returns (fst (k a s))) ->
  ~ returns (fst (bind m k self)).
Proof.
  intros HP Hm Hk. unfold bind. specialize (Hm self HP).
  destruct (m self) as [[a | e] self1]; simpl in *.
  - apply Hk. exact Hm.
  - intros [r Hr]. discriminate Hr.
Qed.

Ltac never_step v :=
  apply (bind_never_returns (fun s => bands_and_nccd s = v));
  [ assumption
  | apply keeps_pres; keeps_auto
  | intros ? ? ? ].

Lemma interp_band_never_returns band bs n self :
  bands_and_nccd self = (Val bs, Val (S n)) ->
  ~ returns (fst (interp_band band self)).
Proof.
  intros H. unfold interp_band.
  do 14 never_step (Val bs, Val (S n)).
  match goal with Hs : bands_and_nccd ?s = _ |- _ =>
    unfold bands_and_nccd in Hs; injection Hs as _ Hn;
    unfold bind, getattr; rewrite Hn; simpl;
    destruct (interp_ccd_raises band 0 s) as [e He];
    unfold bind; rewrite He
  end.
  intros [r Hr]. discriminate Hr.
Qed.

Lemma interp_bands_never_returns b bs n self :
  bands_and_nccd self = (Val (b :: bs), Val (S n)) ->
  ~ returns (fst (interp_bands self)).
Proof.
  intros H. pose proof H as H'. unfold bands_and_nccd in H'.
  injection H' as Hb _.
  unfold interp_bands, bind, getattr. rewrite Hb. simpl.
  pose proof (interp_band_never_returns b (b :: bs) n self H) as Hnot.
  unfold bind.
  destruct (interp_band b self) as [[[] | e] self1]; simpl in *.
  - exfalso. apply Hnot. eexists. reflexivity.
  - intros [r Hr]. discriminate Hr.
Qed.

(** X11. On any object with at least one band and a detector count of at
    least one, the tables being loaded or not, [set_wavelengths] never
    returns: the guard of lines 33-37 raises or fails, and the rebuild
    stops in the first band at the latest, where line 52 calls the
    interpolant with a second argument. *)
Theorem set_wavelengths_never_returns g b bs n self :
  bands self = Val (b :: bs) ->
  nccd self = Val (S n) ->
  ~ returns (fst (set_wavelengths g self)).
Proof.
  intros Hb Hn.
  assert (bands_and_nccd self = (Val (b :: bs), Val (S n))) as H
    by (unfold bands_and_nccd; rewrite Hb, Hn; reflexivity).
  unfold set_wavelengths, bind at 1.
  destruct (grid_matches_cases g self) as [-> | [e ->]].
  - unfold rebuild.
    do 3 never_step (Val (b :: bs), Val (S n)).
    eapply interp_bands_never_returns. eassumption.
  - intros [r Hr]. discriminate Hr.
Qed.

Lemma set_wavelengths_never_returns_witness :
  bands Loaded.uncached = Val ["g"] /\
  nccd Loaded.uncached = Val 2%nat /\
  ~ returns (fst (set_wavelengths Demo.grid Loaded.uncached)).
Proof.
  assert (bands Loaded.uncached = Val ["g"]) as Hb by reflexivity.
  assert (nccd Loaded.uncached = Val 2%nat) as Hn by reflexivity.
  split; [exact Hb |]. split; [exact Hn |].
  exact (set_wavelengths_never_returns
           Demo.grid "g" [] 1%nat Loaded.uncached Hb Hn).
Defined.

(** X12. [set_wavelengths] stores the grid before anything can fail in
    the rebuild: on any object with no grid cached, or with a cached
    grid of another length, the cached grid after the call is the new
    one, also when the call raises. *)
Theorem set_wavelengths_stores_the_grid_first g self :
  _wavelengths self = PyNone \/
  (exists cached,
     _wavelengths self = Val cached /\ length g <> length cached) ->
  _wavelengths (snd (set_wavelengths g self)) = Val g.
Proof.
  intros Hw.
  unfold set_wavelengths, grid_matches, bind at 1, bind at 1, getattr.
  destruct Hw as [-> | (cached & -> & Hlen)].
  - apply rebuild_wavelengths.
  - apply Nat.eqb_neq in Hlen. rewrite Hlen. apply rebuild_wavelengths.
Qed.

Lemma set_wavelengths_stores_the_grid_first_witness :
  (_wavelengths Demo.fresh = PyNone \/
   (exists cached,
      _wavelengths Demo.fresh = Val cached /\
      length Demo.grid <> length cached)) /\
  fst (set_wavelengths Demo.grid Demo.fresh)
  = Raise (TypeError NoneNotSubscriptable) /\
  _wavelengths (snd (set_wavelengths Demo.grid Demo.fresh)) = Val Demo.grid.
Proof.
  assert (_wavelengths Demo.fresh = PyNone \/
          (exists cached,
             _wavelengths Demo.fresh = Val cached /\
             length Demo.grid <> length cached)) as Hw
    by (left; reflexivity).
  split; [exact Hw |]. split; [reflexivity |].
  exact (set_wavelengths_stores_the_grid_first Demo.grid Demo.fresh Hw).
Defined.

(** ** Further properties: [get_transmission] on an object that holds
    tables *)

(** X13. On an object whose [_atm_data] holds a table, whose [nccd] is a
    number and whose detector cache is bound, [get_transmission] without
    a [wavelengths] argument tests its arguments in this order and
    leaves the object unchanged: an exposure number that is not in the
    table gives "Exposure not found", whatever the detector and the
    band; otherwise a detector number outside [1, nccd] gives "ccdnum
    out of range", whatever the band; otherwise a band without cache
    entry gives "band not in throughput table". *)
Theorem get_transmission_checks_in_order
    band expnum ccdnum self t n cache :
  _atm_data self = Val t ->
  nccd self = Val n ->
  _band_ccd_interp self = Val cache ->
  (~ In expnum (AtmTable.expnum t) ->
   get_transmission band expnum ccdnum None self
   = (Raise (ValueError (ExposureNotFound expnum)), self)) /\
  (In expnum (AtmTable.expnum t) ->
   (ccdnum < 1 \/ Z.of_nat n < ccdnum)%Z ->
   get_transmission band expnum ccdnum None self
   = (Raise (ValueError (CcdnumOutOfRange ccdnum)), self)) /\
  (In expnum (AtmTable.expnum t) ->
   (1 <= ccdnum <= Z.of_nat n)%Z ->
   cache !! band = None ->
   get_transmission band expnum ccdnum None self
   = (Raise (ValueError (BandNotInTable band)), self)).
Proof.
  intros Hatm Hn Hc. split; [| split].
  - intros Hnot. exact (exposure_check band expnum ccdnum self t Hatm Hnot).
  - intros Hin Hout.
    exact (ccdnum_check band expnum ccdnum self t n Hatm Hin Hn Hout).
  - intros Hin Hrange Hband.
    exact (get_transmission_band_check
             band expnum ccdnum self t n cache Hatm Hin Hn Hrange Hc Hband).
Qed.

Lemma get_transmission_checks_in_order_witness :
  _atm_data Loaded.uncached = Val Loaded.atm_data /\
  nccd Loaded.uncached = Val 2%nat /\
  _band_ccd_interp Loaded.uncached = Val ∅ /\
  get_transmission "k" 1000000 100 None Loaded.uncached
  = (Raise (ValueError (ExposureNotFound 1000000)), Loaded.uncached) /\
  get_transmission "k" 226650 100 None Loaded.uncached
  = (Raise (ValueError (CcdnumOutOfRange 100)), Loaded.uncached) /\
  get_transmission "k" 226650 2 None Loaded.uncached
  = (Raise (ValueError (BandNotInTable "k")), Loaded.uncached).
Proof.
  assert (_atm_data Loaded.uncached = Val Loaded.atm_data) as Hatm
    by reflexivity.
  assert (nccd Loaded.uncached = Val 2%nat) as Hn by reflexivity.
  assert (_band_ccd_interp Loaded.uncached
          = Val (∅ : gmap string (list (list Q)))) as Hc by reflexivity.
  assert (~ In 1000000%Z (AtmTable.expnum Loaded.atm_data)) as Hnot.
  { simpl. intros [H | [H | [H | []]]]; discriminate H. }
  assert (In 226650%Z (AtmTable.expnum Loaded.atm_data)) as Hin
    by (simpl; left; reflexivity).
  split; [exact Hatm |]. split; [exact Hn |]. split; [exact Hc |].
  split; [| split].
  - exact (proj1 (get_transmission_checks_in_order
                    "k" 1000000%Z 100%Z _ _ _ _ Hatm Hn Hc) Hnot).
  - refine (proj1 (proj2 (get_transmission_checks_in_order
                    "k" 226650%Z 100%Z _ _ _ _ Hatm Hn Hc)) Hin _).
    right. reflexivity.
  - refine (proj2 (proj2 (get_transmission_checks_in_order
                    "k" 226650%Z 2%Z _ _ _ _ Hatm Hn Hc)) Hin _ _).
    + split; discriminate.
    + reflexivity.
Defined.

(** X14. What [get_transmission] returns is two-dimensional. On any
    object whose [_atm_data] holds a table, when the call returns, the
    result has one row per table row whose [expnum] equals the exposure
    number, at least one: [throughput[u, :]] keeps every matching row,
    and the product of line 104 broadcasts the detector column along
    them. *)
Theorem get_transmission_returns_one_row_per_match
    band expnum ccdnum w self self' t r :
  _atm_data self = Val t ->
  get_transmission band expnum ccdnum w self = (Return r, self') ->
  length r = count_occ Z.eq_dec (AtmTable.expnum t) expnum /\
  (1 <= length r)%nat.
Proof.
  intros Hatm Hret.
  assert (exists self1,
            _atm_data self1 = Val t /\
            get_transmission band expnum ccdnum None self1 = (Return r, self'))
    as (self1 & Hatm1 & Hret1).
  { destruct w as [g |]; [| eauto].
    revert Hret. unfold get_transmission at 1. unfold bind at 1.
    pose proof (set_wavelengths_keeps_tables g self) as Hk.
    destruct (set_wavelengths g self) as [[[] | e] self1]; [| discriminate].
    intros Hret. exists self1. split; [| exact Hret].
    simpl in Hk. unfold tables in Hk. congruence. }
  pose proof (get_transmission_rows _ _ _ _ _ _ _ Hatm1 Hret1) as Hlen.
  split; [exact Hlen |].
  destruct (in_dec Z.eq_dec expnum (AtmTable.expnum t)) as [Hin | Hnot].
  - rewrite Hlen. apply (count_occ_In Z.eq_dec) in Hin. lia.
  - rewrite (exposure_check band expnum ccdnum self1 t Hatm1 Hnot) in Hret1.
    discriminate Hret1.
Qed.

Lemma get_transmission_returns_one_row_per_match_witness :
  _atm_data Loaded.cached = Val Loaded.atm_data /\
  get_transmission "g" 226650 1 None Loaded.cached
  = (Return [[0 # 40000; 256000 # 400000; 0 # 400000]%Q;
             [0 # 40000; 192000 # 400000; 0 # 400000]%Q],
     Loaded.cached) /\
  length [[0 # 40000; 256000 # 400000; 0 # 400000]%Q;
          [0 # 40000; 192000 # 400000; 0 # 400000]%Q]
  = count_occ Z.eq_dec (AtmTable.expnum Loaded.atm_data) 226650%Z /\
  (1 <= length [[0 # 40000; 256000 # 400000; 0 # 400000]%Q;
                [0 # 40000; 192000 # 400000; 0 # 400000]%Q])%nat.
Proof.
  assert (_atm_data Loaded.cached = Val Loaded.atm_data) as Hatm
    by reflexivity.
  assert (get_transmission "g" 226650 1 None Loaded.cached
          = (Return [[0 # 40000; 256000 # 400000; 0 # 400000]%Q;
                     [0 # 40000; 192000 # 400000; 0 # 400000]%Q],
             Loaded.cached)) as Hret by (vm_compute; reflexivity).
  split; [exact Hatm |]. split; [exact Hret |].
  exact (get_transmission_returns_one_row_per_match
           "g" 226650%Z 1%Z None Loaded.cached Loaded.cached
           Loaded.atm_data _ Hatm Hret).
Defined.

(** ** Further properties: what the caches hold *)

Lemma set_wavelengths_rebuilds g self :
  _wavelengths self = PyNone ->
  snd (set_wavelengths g self) = snd (rebuild g self).
Proof.
  intros H. unfold set_wavelengths, grid_matches, bind at 1, bind at 1, getattr.
  rewrite H. reflexivity.
Qed.

(** X15. Every cached band is a loaded band. After a [set_wavelengths]
    on an object without grid, returned or raised, and after whatever
    public calls follow it, each key of [_band_tput_interp] and of
    [_band_ccd_interp] is one of [self.bands]: the caches are emptied in
    lines 42-43 and entries are stored for the bands of the loop of
    line 44 only. *)
Theorem cached_bands_are_loaded_bands g calls self :
  _wavelengths self = PyNone ->
  caches_within_bands (run calls (snd (set_wavelengths g self))).
Proof.
  intros H. apply run_caches_within_bands.
  rewrite (set_wavelengths_rebuilds g self H).
  apply rebuild_caches_within_bands.
Qed.

Lemma cached_bands_are_loaded_bands_witness :
  _wavelengths Loaded.uncached = PyNone /\
  _band_tput_interp (snd (set_wavelengths Demo.grid Loaded.uncached))
  = Val {["g" := [0 # 40000; 36000 # 40000; 0 # 400000]%Q]} /\
  caches_within_bands
    (run [Call_get_std_transmission "k" None]
       (snd (set_wavelengths Demo.grid Loaded.uncached))).
Proof.
  assert (_wavelengths Loaded.uncached = PyNone) as H by reflexivity.
  split; [exact H |]. split; [vm_compute; reflexivity |].
  exact (cached_bands_are_loaded_bands
           Demo.grid [Call_get_std_transmission "k" None] Loaded.uncached H).
Defined.


